(** * Git File Email Agent: a shallow embedding of [git_file_email_agent.py]

    The agent resolves the current branch, asks [git log] for today's
    commits, parses the log into (filename, date, branch) entries, renders
    them as an HTML table and mails the table through an SMTP relay.

    Python text is modelled as a list of Unicode code points, so that
    [str.strip], [str.split], [in] and slicing have exactly the meaning they
    have on a Python [str].  The outside world (the two [git] processes, the
    clock, the console input and the SMTP server) is an explicit [world]
    record; what the program does to the outside world is an explicit list of
    [event]s. *)

From Stdlib Require Import List NArith ZArith Bool Ascii String Lia.
From Stdlib Require Import DecimalString.
Import ListNotations.

Set Implicit Arguments.

(** ** Python text *)

Module Py.

(** A character is a code point, a [str] a sequence of code points. *)
Definition char := N.
Definition str := list char.

(** String literals of the source, written as Rocq strings (all the
    literals used this way are ASCII). *)
Definition lit (s : string) : str :=
  map N_of_ascii (list_ascii_of_string s).

Definition str_eqb (a b : str) : bool :=
  if list_eq_dec N.eq_dec a b then true else false.

(** [str.isspace] on one code point (CPython's [_PyUnicode_IsWhitespace]). *)
Definition isspace (c : char) : bool :=
  ((9 <=? c) && (c <=? 13) || (28 <=? c) && (c <=? 32)
   || (c =? 133) || (c =? 160) || (c =? 5760)
   || (8192 <=? c) && (c <=? 8202)
   || (c =? 8232) || (c =? 8233) || (c =? 8239) || (c =? 8287)
   || (c =? 12288))%N.

Fixpoint lstrip (s : str) : str :=
  match s with
  | [] => []
  | c :: s' => if isspace c then lstrip s' else s
  end.

Definition rstrip (s : str) : str := rev (lstrip (rev s)).

(** [s.strip()] *)
Definition strip (s : str) : str := rstrip (lstrip s).

(** [c in s] for a one-character [c]. *)
Definition contains (c : char) (s : str) : bool :=
  existsb (N.eqb c) s.

(** [s.split(sep)] for a one-character separator: one field more than
    there are separators, so never an empty list. *)
Fixpoint split (sep : char) (s : str) : list str :=
  match s with
  | [] => [[]]
  | c :: s' =>
      if N.eqb c sep then [] :: split sep s'
      else match split sep s' with
           | [] => [[c]]
           | f :: fs => (c :: f) :: fs
           end
  end.

(** [sep.join(fields)] *)
Fixpoint join (sep : str) (fields : list str) : str :=
  match fields with
  | [] => []
  | [f] => f
  | f :: fs => f ++ sep ++ join sep fs
  end.

(** [s[:n]] *)
Definition prefix (n : nat) (s : str) : str := firstn n s.

(** Truth value of a [str] and of a list. *)
Definition truthy {A} (l : list A) : bool :=
  match l with [] => false | _ => true end.

(** [x or default] where [x] is [None] or a [str]. *)
Definition or_else (x : option str) (default : str) : str :=
  match x with
  | Some s => if truthy s then s else default
  | None => default
  end.

(** Decimal rendering of a natural number, [str(n)]. *)
Definition dec (n : N) : str :=
  lit (NilZero.string_of_uint (N.to_uint n)).

(** [%02d] of a number below 100. *)
Definition two_digits (n : N) : str :=
  [48 + (n / 10) mod 10; 48 + n mod 10]%N.

(** [%04d] of a number below 10000. *)
Definition four_digits (n : N) : str :=
  [48 + (n / 1000) mod 10; 48 + (n / 100) mod 10;
   48 + (n / 10) mod 10; 48 + n mod 10]%N.

Definition pipe : char := 124%N.
Definition newline : char := 10%N.

End Py.
Import Py.

(** ** Data model *)

(** One element of [self.changed_files]: the dict with keys
    ['filename'], ['date'] and ['branch']. *)
Record file_info := {
  filename : str;
  date : str;
  branch : str
}.

(** [current_commit_info]: the dict with keys ['hash'], ['date'] and
    ['author'], named here after the locals that fill them. *)
Record commit_info := {
  commit_hash : str;
  commit_date : str;
  author : str
}.

(** The fields of [GitFileEmailAgent]. *)
Record GitFileEmailAgent := {
  recipient_email : str;
  gmail_username : str;
  gmail_password : str;
  changed_files : list file_info;
  branch_name : option str
}.

(** [GitFileEmailAgent.__init__] *)
Definition init (recipient username password : str) : GitFileEmailAgent :=
  {| recipient_email := recipient;
     gmail_username := username;
     gmail_password := password;
     changed_files := [];
     branch_name := None |}.

Definition set_branch_name (b : option str) (a : GitFileEmailAgent) :=
  {| recipient_email := recipient_email a;
     gmail_username := gmail_username a;
     gmail_password := gmail_password a;
     changed_files := changed_files a;
     branch_name := b |}.

Definition set_changed_files (l : list file_info) (a : GitFileEmailAgent) :=
  {| recipient_email := recipient_email a;
     gmail_username := gmail_username a;
     gmail_password := gmail_password a;
     changed_files := l;
     branch_name := branch_name a |}.

(** ** Exceptions, the outside world and the trace of effects *)

(** The exception classes the program can meet.  [OtherError] stands for
    any other subclass of [Exception] (a socket or protocol error of
    [smtplib], say). *)
Inductive exn_class :=
| CalledProcessError
| FileNotFoundError
| IndexError
| SMTPAuthenticationError
| OtherError.

Definition exn_class_eqb (a b : exn_class) : bool :=
  match a, b with
  | CalledProcessError, CalledProcessError
  | FileNotFoundError, FileNotFoundError
  | IndexError, IndexError
  | SMTPAuthenticationError, SMTPAuthenticationError
  | OtherError, OtherError => true
  | _, _ => false
  end.

(** An exception value: its class and the text [str(e)]. *)
Record exn := { cls : exn_class; message : str }.

Inductive result (A : Type) :=
| Return (a : A)
| Raise (e : exn).
Arguments Return {A} a.
Arguments Raise {A} e.

(** [date.today()] and [datetime.now()] *)
Record Date := { year : N; month : N; day : N }.
Record DateTime := {
  dt_date : Date; hour : N; minute : N; second : N
}.

(** How a child process ends: it exits with a status, it is killed by a
    signal ([signal_repr] is Python's rendering of the signal), or it cannot
    be started at all: the executable is missing and [Popen] raises
    [FileNotFoundError] with the operating system's message. *)
Inductive process :=
| Exited (returncode : N) (stdout : str)
| Killed (signal_repr : str)
| NotStarted (os_message : str).

(** The message handed to [smtplib]: the headers set by [send_email] and
    the one HTML part attached. *)
Record email := {
  Subject : str;
  From : str;
  To : str;
  html_part : str
}.

(** Everything the program reads from outside, and what the [email]
    package makes of a message: [mime_build] is the exception raised, if
    any, while the message is put together ([MIMEMultipart], the three
    headers, [MIMEText] and [attach]: text that cannot be encoded), and
    [mime_as_string] the one raised by [msg.as_string()] (a header value
    with a line break in it). *)
Record world := {
  today : Date;
  now : DateTime;
  git_rev_parse : process;
  git_log : process;
  input_username : str;
  input_password : str;
  smtp_connect : option exn;
  smtp_login : option exn;
  smtp_sendmail : option exn;
  smtp_quit : option exn;
  mime_build : email -> option exn;
  mime_as_string : email -> option exn
}.

(** Everything the program does to the outside. *)
Inductive event :=
| Print (s : str)
| Run (argv : list str)
| SmtpSSL (host : str) (port : N)
| SmtpLogin (user password : str)
| SmtpSendmail (sender recipient : str) (msg : email)
| SmtpQuit.

Definition trace := list event.

(** ** The monad of methods: agent state, exceptions and trace *)

Definition M (A : Type) : Type :=
  GitFileEmailAgent -> result A * GitFileEmailAgent * trace.

Definition ret {A} (a : A) : M A := fun s => (Return a, s, []).

Definition raise {A} (e : exn) : M A := fun s => (Raise e, s, []).

Definition bind {A B} (m : M A) (k : A -> M B) : M B := fun s =>
  match m s with
  | (Return a, s1, t1) =>
      let '(r, s2, t2) := k a s1 in (r, s2, t1 ++ t2)
  | (Raise e, s1, t1) => (Raise e, s1, t1)
  end.

(** [try: m  except ...: h e]; the handler re-raises what it does not
    handle.  What [m] did to the agent and to the world before it raised
    stays done. *)
Definition try_except {A} (m : M A) (h : exn -> M A) : M A := fun s =>
  match m s with
  | (Return a, s1, t1) => (Return a, s1, t1)
  | (Raise e, s1, t1) =>
      let '(r, s2, t2) := h e s1 in (r, s2, t1 ++ t2)
  end.

Definition self : M GitFileEmailAgent := fun s => (Return s, s, []).

Definition update (f : GitFileEmailAgent -> GitFileEmailAgent) : M unit :=
  fun s => (Return tt, f s, []).

Definition emit (ev : event) : M unit := fun s => (Return tt, s, [ev]).

Definition print (s : str) : M unit := emit (Print s).

Declare Scope py_scope.
Delimit Scope py_scope with py.
Notation "x <- m ;; k" := (bind m (fun x => k))
  (at level 61, m at next level, right associativity) : py_scope.
Notation "m ;; k" := (bind m (fun _ => k))
  (at level 61, right associativity) : py_scope.
Local Open Scope py_scope.

Definition value {A} (x : result A * GitFileEmailAgent * trace) : result A :=
  fst (fst x).
Definition agent_after {A} (x : result A * GitFileEmailAgent * trace)
  : GitFileEmailAgent := snd (fst x).
Definition trace_of {A} (x : result A * GitFileEmailAgent * trace) : trace :=
  snd x.

(** ** [subprocess.run(argv, capture_output=True, text=True, check=True)] *)

(** [str(argv)] for arguments made of printable characters without quotes
    or backslashes, as all arguments of this program are. *)
Definition repr_argv (argv : list str) : str :=
  lit "[" ++ join (lit ", ") (map (fun a => lit "'" ++ a ++ lit "'") argv)
  ++ lit "]".

Definition subprocess_run (argv : list str) (p : process) : M str :=
  emit (Run argv) ;;
  match p with
  | Exited 0 out => ret out
  | Exited rc _ =>
      raise {| cls := CalledProcessError;
               message := lit "Command '" ++ repr_argv argv
                          ++ lit "' returned non-zero exit status "
                          ++ dec rc ++ lit "." |}
  | Killed sig =>
      raise {| cls := CalledProcessError;
               message := lit "Command '" ++ repr_argv argv
                          ++ lit "' died with " ++ sig ++ lit "." |}
  | NotStarted msg => raise {| cls := FileNotFoundError; message := msg |}
  end.

(** [l[i]] *)
Definition index {A} (l : list A) (i : nat) : M A :=
  match nth_error l i with
  | Some x => ret x
  | None => raise {| cls := IndexError;
                     message := lit "list index out of range" |}
  end.

(** ** The agent's methods *)

(** [date.isoformat()], which is also [str(date)]: [YYYY-MM-DD]. *)
Definition isoformat (d : Date) : str :=
  four_digits (year d) ++ lit "-" ++ two_digits (month d)
  ++ lit "-" ++ two_digits (day d).

(** [datetime.strftime('%Y-%m-%d %H:%M:%S')].  [%Y] is the year in decimal
    (the C library pads nothing; from the year 1000 on every platform
    agrees). *)
Definition strftime (t : DateTime) : str :=
  dec (year (dt_date t)) ++ lit "-" ++ two_digits (month (dt_date t))
  ++ lit "-" ++ two_digits (day (dt_date t)) ++ lit " "
  ++ two_digits (hour t) ++ lit ":" ++ two_digits (minute t)
  ++ lit ":" ++ two_digits (second t).

Definition rev_parse_argv : list str :=
  [lit "git"; lit "rev-parse"; lit "--abbrev-ref"; lit "HEAD"].

Definition get_current_branch (w : world) : M (option str) :=
  try_except
    (stdout <- subprocess_run rev_parse_argv (git_rev_parse w) ;;
     update (set_branch_name (Some (strip stdout))) ;;
     a <- self ;;
     ret (branch_name a))
    (fun e =>
       if exn_class_eqb (cls e) CalledProcessError then
         print (lit "Error getting branch name: " ++ message e) ;;
         ret None
       else raise e).

(** The argument vector of the log query, built from [date.today()].  The
    method calls [date.today()] twice; both calls are taken to fall on the
    same day.  [f'{date.today()}'] is [str] of the date, which is its
    [isoformat]. *)
Definition log_argv (d : Date) : list str :=
  let today := isoformat d in
  [lit "git"; lit "log";
   lit "--all";
   lit "--since=" ++ today;
   lit "--until=" ++ isoformat d;
   lit "--name-only";
   lit "--pretty=format:%h|%an|%ai|%s"].

(** The body of [for line in lines]; [current_commit_info] is the loop's
    local, [self.changed_files] lives in the agent. *)
Fixpoint for_line_in (lines : list str)
    (current_commit_info : option commit_info) : M unit :=
  match lines with
  | [] => ret tt
  | line :: rest =>
      if contains pipe line then
        let parts := split pipe line in
        commit_hash <- index parts 0 ;;
        author <- index parts 1 ;;
        field <- index parts 2 ;;
        let commit_date := prefix 10 field in
        for_line_in rest
          (Some {| commit_hash := commit_hash;
                   commit_date := commit_date;
                   author := author |})
      else
        match truthy (strip line), current_commit_info with
        | true, Some info =>
            a <- self ;;
            update (set_changed_files
                      (changed_files a ++
                       [{| filename := strip line;
                           date := commit_date info;
                           branch := or_else (branch_name a) (lit "Unknown")
                        |}])) ;;
            for_line_in rest current_commit_info
        | _, _ => for_line_in rest current_commit_info
        end
  end.

Definition get_files_changed_today (w : world) : M (list file_info) :=
  try_except
    (stdout <- subprocess_run (log_argv (today w)) (git_log w) ;;
     if negb (truthy (strip stdout)) then
       print (lit "No commits found for today") ;;
       ret []
     else
       let lines := split newline (strip stdout) in
       update (set_changed_files []) ;;
       for_line_in lines None ;;
       a <- self ;;
       ret (changed_files a))
    (fun e =>
       if exn_class_eqb (cls e) CalledProcessError then
         print (lit "Error getting changed files: " ++ message e) ;;
         ret []
       else raise e).

(** *** Rendering *)

(** The literals of [create_html_table], character for character. *)
Definition html_open : str := lit "
        <html>
        <head>
            <style>
                table {
                    border-collapse: collapse;
                    width: 100%;
                    margin: 20px 0;
                    font-family: Arial, sans-serif;
                }
                th {
                    background-color: #4CAF50;
                    color: white;
                    padding: 12px;
                    text-align: left;
                    border: 1px solid #ddd;
                }
                td {
                    padding: 10px;
                    border: 1px solid #ddd;
                }
                tr:nth-child(even) {
                    background-color: #f2f2f2;
                }
                tr:hover {
                    background-color: #ddd;
                }
            </style>
        </head>
        <body>
            <h2>Git Files Changed Today Report</h2>
            <table>
                <tr>
                    <th>Date</th>
                    <th>Filename</th>
                    <th>Branch</th>
                </tr>
        ".

Definition row_open : str := lit "
                <tr>
                    <td>".

Definition cell_sep : str := lit "</td>
                    <td>".

Definition row_close : str := lit "</td>
                </tr>
            ".

Definition table_close : str := lit "
            </table>
            <p><small>Report generated on ".

Definition html_close : str := lit "</small></p>
        </body>
        </html>
        ".

Definition no_files_notice : str := lit "<p>No files changed today.</p>".

(** The f-string appended for one [file_info]. *)
Definition html_row (f : file_info) : str :=
  row_open ++ date f ++ cell_sep ++ filename f ++ cell_sep ++ branch f
  ++ row_close.

Definition create_html_table (w : world) : M str :=
  a <- self ;;
  if negb (truthy (changed_files a)) then ret no_files_notice
  else
    let html := html_open in
    let html :=
      fold_left (fun html file_info => html ++ html_row file_info)
                (changed_files a) html in
    let html := html ++ (table_close ++ strftime (now w) ++ html_close) in
    ret html.

(** *** Sending *)

Definition check_mark : char := 10003%N.
Definition cross_mark : char := 10007%N.

(** One call into [smtplib]: the call is made, and it raises if the world
    says so. *)
Definition smtp (ev : event) (failure : option exn) : M unit :=
  emit ev ;;
  match failure with
  | None => ret tt
  | Some e => raise e
  end.

(** A step of the [email] package: nothing is seen of it from outside,
    unless it raises.  In [send_email] the message is put together before
    the first call into [smtplib], and [msg.as_string()], an argument of
    [server.sendmail], is evaluated after [login] and before the call. *)
Definition may_raise (failure : option exn) : M unit :=
  match failure with
  | None => ret tt
  | Some e => raise e
  end.

(** What the [except smtplib.SMTPAuthenticationError] clause prints. *)
Definition authentication_diagnostic : list str :=
  [cross_mark :: lit " Error: Gmail authentication failed.";
   lit "  Make sure you're using an App Password, not your regular Gmail password.";
   lit "  Generate one at: https://myaccount.google.com/apppasswords"].

(** What the [except Exception as e] clause prints. *)
Definition transmission_diagnostic (e : exn) : list str :=
  [cross_mark :: lit " Error sending email: " ++ message e].

Fixpoint print_all (l : list str) : M unit :=
  match l with
  | [] => ret tt
  | s :: l' => print s ;; print_all l'
  end.

Definition send_email (w : world) : M bool :=
  a <- self ;;
  if negb (truthy (changed_files a)) then
    print (lit "No files changed today. Email not sent.") ;;
    ret false
  else
    try_except
      (html_content <- create_html_table w ;;
       let msg :=
         {| Subject := lit "Git Files Changed Today - "
                       ++ or_else (branch_name a) (lit "Unknown Branch");
            From := gmail_username a;
            To := recipient_email a;
            html_part := html_content |} in
       may_raise (mime_build w msg) ;;
       smtp (SmtpSSL (lit "smtp.gmail.com") 465) (smtp_connect w) ;;
       smtp (SmtpLogin (gmail_username a) (gmail_password a)) (smtp_login w) ;;
       may_raise (mime_as_string w msg) ;;
       smtp (SmtpSendmail (gmail_username a) (recipient_email a) msg)
            (smtp_sendmail w) ;;
       smtp SmtpQuit (smtp_quit w) ;;
       print (check_mark :: lit " Email sent successfully to "
              ++ recipient_email a) ;;
       ret true)
      (fun e =>
         if exn_class_eqb (cls e) SMTPAuthenticationError then
           print_all authentication_diagnostic ;;
           ret false
         else
           print_all (transmission_diagnostic e) ;;
           ret false).

(** *** The whole run *)

Definition banner : str := repeat 61%N 60.

(** [f"{x}"] for [x] that is [None] or a [str]. *)
Definition format_option (x : option str) : str :=
  match x with Some s => s | None => lit "None" end.

Definition truthy_option (x : option str) : bool :=
  match x with Some s => truthy s | None => false end.

Definition run (w : world) : M bool :=
  print banner ;;
  print (lit "Git File Email Agent") ;;
  print banner ;;
  print (newline :: lit "1. Fetching current branch...") ;;
  b <- get_current_branch w ;;
  if negb (truthy_option b) then
    print (cross_mark :: lit " Failed to get branch name") ;;
    ret false
  else
    a <- self ;;
    print (lit "   " ++ check_mark :: lit " Current branch: "
           ++ format_option (branch_name a)) ;;
    print (newline :: lit "2. Fetching files changed today...") ;;
    get_files_changed_today w ;;
    a <- self ;;
    print (lit "   " ++ check_mark :: lit " Found "
           ++ dec (N.of_nat (List.length (changed_files a)))
           ++ lit " file(s) changed today") ;;
    (if truthy (changed_files a) then
       print (newline :: lit "3. Files found:") ;;
       print_all
         (map (fun file_info =>
                 lit "   - " ++ filename file_info ++ lit " ("
                 ++ date file_info ++ lit ")")
              (changed_files a))
     else ret tt) ;;
    print (newline :: lit "4. Sending email...") ;;
    success <- send_email w ;;
    print (newline :: banner) ;;
    ret success.

Definition RECIPIENT_EMAIL : str := lit "swarooj@gmail.com".

(** [main] up to [sys.exit]: the agent is built from the two console
    inputs and run. *)
Definition main_run (w : world) : result bool * GitFileEmailAgent * trace :=
  run w (init RECIPIENT_EMAIL (strip (input_username w))
              (strip (input_password w))).

(** The status the process ends with: [sys.exit(0 if success else 1)], and
    1 as well when an exception reaches the top level uncaught. *)
Definition exit_status (r : result bool) : Z :=
  match r with
  | Return true => 0
  | Return false => 1
  | Raise _ => 1
  end.

Definition main (w : world) : Z * trace :=
  (exit_status (value (main_run w)), trace_of (main_run w)).

(** ** The log as the specification describes it

    The definitions of this section follow the words of the specification:
    a line with a ['|'] is a commit header, its date is the first 10
    characters of its third field, and a file line belongs to the header
    that most recently preceded it. *)

(** [lines] of [get_files_changed_today]. *)
Definition log_lines (stdout : str) : list str :=
  split newline (strip stdout).

Definition is_header (line : str) : bool := contains pipe line.

(** A header has the three fields the parser reads. *)
Definition well_formed (line : str) : Prop :=
  is_header line = true -> 3 <= List.length (split pipe line).

(** The same as a test that computes. *)
Definition well_formedb (line : str) : bool :=
  negb (is_header line) || (3 <=? List.length (split pipe line)).

Definition ill_formed (line : str) : Prop :=
  is_header line = true /\ List.length (split pipe line) < 3.

Definition header_date (header : str) : str :=
  prefix 10 (nth 2 (split pipe header) []).

(** A line that is not a header: a file path or a blank line. *)
Definition plain (line : str) : Prop := is_header line = false.

(** The header seen last among the lines read so far. *)
Definition last_header (seen : list str) : option str :=
  find is_header (rev seen).

Definition is_file_line (line : str) : bool :=
  negb (is_header line) && truthy (strip line).

(** The entry a line gives rise to, after the lines [seen]. *)
Definition entry_of (br : str) (seen : list str) (line : str)
  : list file_info :=
  if is_file_line line then
    match last_header seen with
    | Some h => [{| filename := strip line;
                    date := header_date h;
                    branch := br |}]
    | None => []
    end
  else [].

(** The entries of the lines [rest], read after the lines [seen]. *)
Fixpoint entries_of (br : str) (seen rest : list str) : list file_info :=
  match rest with
  | [] => []
  | line :: rest' =>
      entry_of br seen line ++ entries_of br (seen ++ [line]) rest'
  end.

(** The branch an entry is stamped with. *)
Definition stamp (a : GitFileEmailAgent) : str :=
  or_else (branch_name a) (lit "Unknown").

(** The exception of an out-of-range list index. *)
Definition index_error : exn :=
  {| cls := IndexError; message := lit "list index out of range" |}.

(** ** Reading a trace *)

(** The calls into [smtplib]. *)
Definition is_smtp (ev : event) : bool :=
  match ev with
  | SmtpSSL _ _ | SmtpLogin _ _ | SmtpSendmail _ _ _ | SmtpQuit => true
  | Print _ | Run _ => false
  end.

(** The runs of [git log], that is, of the Change Collector's query. *)
Definition is_log_query (ev : event) : bool :=
  match ev with
  | Run (_ :: command :: _) => str_eqb command (lit "log")
  | _ => false
  end.

(** The lines printed to the console, in order. *)
Fixpoint printed (t : trace) : list str :=
  match t with
  | [] => []
  | Print s :: t' => s :: printed t'
  | _ :: t' => printed t'
  end.

(** A trace without a call into [smtplib], and one without a log query. *)
Definition no_smtp (t : trace) : Prop :=
  forallb (fun ev => negb (is_smtp ev)) t = true.

Definition no_log_query (t : trace) : Prop :=
  forallb (fun ev => negb (is_log_query ev)) t = true.

(** What [send_email] prints for an exception [e]. *)
Definition diagnostic (e : exn) : list str :=
  if exn_class_eqb (cls e) SMTPAuthenticationError
  then authentication_diagnostic
  else transmission_diagnostic e.

(** ** Reading a query

    [query_errors]: the query did not end with status 0, whatever the
    reason.  [exits_with_failure]: the query ran and ended with a non-zero
    status or by a signal, which is when [subprocess.run(check=True)] raises
    [CalledProcessError]. *)
Definition query_errors (p : process) : Prop :=
  match p with
  | Exited 0 _ => False
  | _ => True
  end.

Definition exits_with_failure (p : process) : Prop :=
  match p with
  | Exited 0 _ | NotStarted _ => False
  | Exited _ _ | Killed _ => True
  end.

(** [s] without its prefix [p], if it starts with [p]. *)
Fixpoint strip_prefix (p s : str) : option str :=
  match p, s with
  | [], _ => Some s
  | c :: p', d :: s' => if N.eqb c d then strip_prefix p' s' else None
  | _ :: _, [] => None
  end.

(** The value of the first argument of the form [name<value>]. *)
Fixpoint option_value (name : str) (argv : list str) : option str :=
  match argv with
  | [] => None
  | arg :: rest =>
      match strip_prefix name arg with
      | Some v => Some v
      | None => option_value name rest
      end
  end.

(** The commit times a log query selects.  [approxidate] stands for the
    way [git] reads a date argument at the moment of the call, as a point
    in time; the same reading serves [--since] and [--until]. *)
Definition in_window (approxidate : str -> Z) (argv : list str)
    (commit_time : Z) : Prop :=
  match option_value (lit "--since=") argv,
        option_value (lit "--until=") argv with
  | Some since, Some until =>
      (approxidate since <= commit_time <= approxidate until)%Z
  | _, _ => False
  end.

(** ** Reading a document *)

(** [s.startswith(p)] *)
Fixpoint starts_with (p s : str) : bool :=
  match p, s with
  | [], _ => true
  | c :: p', d :: s' => N.eqb c d && starts_with p' s'
  | _ :: _, [] => false
  end.

(** The number of places of [s] where [p] occurs. *)
Fixpoint occurrences (p s : str) : nat :=
  match s with
  | [] => 0
  | _ :: s' => (if starts_with p s then 1 else 0) + occurrences p s'
  end.

(** The opening tags of a table row, of a header cell and of a data
    cell. *)
Definition tr_tag : str := lit "<tr>".
Definition th_tag : str := lit "<th>".
Definition td_tag : str := lit "<td>".

Definition less_than : char := 60%N.

(** An entry whose three texts are free of ['<'], so that they bring no
    markup of their own into the document. *)
Definition markup_free (f : file_info) : Prop :=
  contains less_than (date f) = false
  /\ contains less_than (filename f) = false
  /\ contains less_than (branch f) = false.

(** The document of a non-empty sequence, as the specification describes
    it: the opening with the header row, one row per entry in the order of
    the sequence, and the closing with the moment of generation. *)
Definition report (t : DateTime) (l : list file_info) : str :=
  html_open ++ List.concat (map html_row l)
  ++ table_close ++ strftime t ++ html_close.

(** ** Sample inputs *)

(** The log of the specification's example: one header, two file lines. *)
Definition example_log : str :=
  lit "abc123|Jane Doe|2024-01-01T10:00:00+00:00|fix bug"
  ++ newline :: lit "src/a.py" ++ newline :: lit "src/b.py".

Definition example_entries (b : str) : list file_info :=
  [{| filename := lit "src/a.py"; date := lit "2024-01-01"; branch := b |};
   {| filename := lit "src/b.py"; date := lit "2024-01-01"; branch := b |}].

(** A log whose first line is a file path that no header precedes. *)
Definition stray_log : str :=
  lit "stray.txt" ++ newline
  :: lit "abc123|Jane Doe|2024-01-01T10:00:00+00:00|fix bug"
  ++ newline :: lit "src/a.py".

(** A log whose second line is a file path with one ['|'] in it. *)
Definition short_header_log : str :=
  lit "abc123|Jane Doe|2024-01-01T10:00:00+00:00|fix bug"
  ++ newline :: lit "docs/a|b.txt".

(** A log whose commit subject has ['|'] characters of its own. *)
Definition piped_subject_log : str :=
  lit "abc123|Jane Doe|2024-01-01T10:00:00+00:00|fix a|b and c|d"
  ++ newline :: lit "src/a.py".

Definition plain_subject_log : str :=
  lit "abc123|Jane Doe|2024-01-01T10:00:00+00:00|fix bug"
  ++ newline :: lit "src/a.py".

(** A serialiser that refuses a header value with a line break in it. *)
Definition header_write_error : exn :=
  {| cls := OtherError; message := lit "folded header contains newline" |}.

Definition rejects_line_breaks (msg : email) : option exn :=
  if contains newline (Subject msg) || contains newline (From msg)
     || contains newline (To msg)
  then Some header_write_error
  else None.

(** A world in which everything works: branch [main], the example log, a
    mail server that accepts the message. *)
Definition example_world : world :=
  {| today := {| year := 2024; month := 1; day := 1 |};
     now := {| dt_date := {| year := 2024; month := 1; day := 1 |};
               hour := 15; minute := 4; second := 5 |};
     git_rev_parse := Exited 0 (lit "main" ++ [newline]);
     git_log := Exited 0 example_log;
     input_username := lit "sender@example.org";
     input_password := lit "app-password";
     smtp_connect := None;
     smtp_login := None;
     smtp_sendmail := None;
     smtp_quit := None;
     mime_build := fun _ => None;
     mime_as_string := rejects_line_breaks |}.

Definition example_agent : GitFileEmailAgent :=
  init RECIPIENT_EMAIL (lit "sender@example.org") (lit "app-password").

(** An agent that holds the branch name and two collected entries. *)
Definition loaded_agent : GitFileEmailAgent :=
  set_changed_files (example_entries (lit "main"))
    (set_branch_name (Some (lit "main")) example_agent).

(** Exceptions of [smtplib]: rejected credentials, and a dropped
    connection. *)
Definition bad_credentials : exn :=
  {| cls := SMTPAuthenticationError;
     message := lit "(535, b'5.7.8 Username and Password not accepted.')" |}.

Definition connection_lost : exn :=
  {| cls := OtherError; message := lit "Connection unexpectedly closed" |}.

(** The same world with other [git] processes or another mail server. *)
Definition with_git_rev_parse (p : process) (w : world) : world :=
  {| today := today w; now := now w;
     git_rev_parse := p; git_log := git_log w;
     input_username := input_username w;
     input_password := input_password w;
     smtp_connect := smtp_connect w; smtp_login := smtp_login w;
     smtp_sendmail := smtp_sendmail w; smtp_quit := smtp_quit w;
     mime_build := mime_build w; mime_as_string := mime_as_string w |}.

Definition with_git_log (p : process) (w : world) : world :=
  {| today := today w; now := now w;
     git_rev_parse := git_rev_parse w; git_log := p;
     input_username := input_username w;
     input_password := input_password w;
     smtp_connect := smtp_connect w; smtp_login := smtp_login w;
     smtp_sendmail := smtp_sendmail w; smtp_quit := smtp_quit w;
     mime_build := mime_build w; mime_as_string := mime_as_string w |}.

Definition with_smtp_login (failure : option exn) (w : world) : world :=
  {| today := today w; now := now w;
     git_rev_parse := git_rev_parse w; git_log := git_log w;
     input_username := input_username w;
     input_password := input_password w;
     smtp_connect := smtp_connect w; smtp_login := failure;
     smtp_sendmail := smtp_sendmail w; smtp_quit := smtp_quit w;
     mime_build := mime_build w; mime_as_string := mime_as_string w |}.

Definition with_smtp_connect (failure : option exn) (w : world) : world :=
  {| today := today w; now := now w;
     git_rev_parse := git_rev_parse w; git_log := git_log w;
     input_username := input_username w;
     input_password := input_password w;
     smtp_connect := failure; smtp_login := smtp_login w;
     smtp_sendmail := smtp_sendmail w; smtp_quit := smtp_quit w;
     mime_build := mime_build w; mime_as_string := mime_as_string w |}.

(** ** Further readings of the log, of a session and of a run *)

(** Text that neither starts nor ends with whitespace. *)
Definition trimmed (s : str) : Prop :=
  (forall c, hd_error s = Some c -> isspace c = false)
  /\ (forall c, hd_error (rev s) = Some c -> isspace c = false).

(** A line with something other than whitespace on it. *)
Definition nonblank (line : str) : bool := truthy (strip line).

(** The lines from the first header on. *)
Fixpoint after_first_header (lines : list str) : list str :=
  match lines with
  | [] => []
  | line :: rest =>
      if is_header line then line :: rest else after_first_header rest
  end.

(** The message [send_email] builds for an agent with entries. *)
Definition built_message (w : world) (a : GitFileEmailAgent) : email :=
  {| Subject := lit "Git Files Changed Today - "
                ++ or_else (branch_name a) (lit "Unknown Branch");
     From := gmail_username a;
     To := recipient_email a;
     html_part := report (now w) (changed_files a) |}.

(** The four calls of a complete session, in the order of the source. *)
Definition session (w : world) (a : GitFileEmailAgent) : list event :=
  [SmtpSSL (lit "smtp.gmail.com") 465;
   SmtpLogin (gmail_username a) (gmail_password a);
   SmtpSendmail (gmail_username a) (recipient_email a) (built_message w a);
   SmtpQuit].

(** The first exception [send_email] meets on an agent with entries, in
    the order of the source: putting the message together, connecting,
    logging in, [msg.as_string()], [sendmail], [quit]. *)
Definition send_failure (w : world) (a : GitFileEmailAgent) : option exn :=
  match mime_build w (built_message w a) with
  | Some e => Some e
  | None =>
  match smtp_connect w with
  | Some e => Some e
  | None =>
  match smtp_login w with
  | Some e => Some e
  | None =>
  match mime_as_string w (built_message w a) with
  | Some e => Some e
  | None =>
  match smtp_sendmail w with
  | Some e => Some e
  | None => smtp_quit w
  end end end end end.

(** How many calls into [smtplib] are made: those up to and including the
    first that fails, and none after a failure of the [email] package. *)
Definition calls_made (w : world) (a : GitFileEmailAgent) : nat :=
  match mime_build w (built_message w a) with
  | Some _ => 0
  | None =>
  match smtp_connect w with
  | Some _ => 1
  | None =>
  match smtp_login w with
  | Some _ => 2
  | None =>
  match mime_as_string w (built_message w a) with
  | Some _ => 2
  | None =>
  match smtp_sendmail w with
  | Some _ => 3
  | None => 4
  end end end end end.

(** What [send_email] prints at the end of a session. *)
Definition closing_lines (w : world) (a : GitFileEmailAgent) : list str :=
  match send_failure w a with
  | Some e => diagnostic e
  | None => [check_mark :: lit " Email sent successfully to "
             ++ recipient_email a]
  end.

Definition is_sendmail (ev : event) : bool :=
  match ev with SmtpSendmail _ _ _ => true | _ => false end.

Definition is_quit (ev : event) : bool :=
  match ev with SmtpQuit => true | _ => false end.

(** The argument vectors of the child processes of a trace, in order. *)
Fixpoint runs (t : trace) : list (list str) :=
  match t with
  | [] => []
  | Run argv :: t' => argv :: runs t'
  | _ :: t' => runs t'
  end.

(** The branch query succeeds with a name that is not empty. *)
Definition branch_resolves (w : world) : bool :=
  match git_rev_parse w with
  | Exited 0 out => truthy (strip out)
  | _ => false
  end.

(** A call into [smtplib] made with the credentials typed at the console
    and addressed to the configured recipient. *)
Definition well_addressed (w : world) (ev : event) : Prop :=
  match ev with
  | SmtpLogin user password =>
      user = strip (input_username w) /\ password = strip (input_password w)
  | SmtpSendmail sender recipient msg =>
      sender = strip (input_username w)
      /\ recipient = RECIPIENT_EMAIL
      /\ From msg = strip (input_username w)
      /\ To msg = RECIPIENT_EMAIL
  | SmtpSSL host port => host = lit "smtp.gmail.com" /\ port = 465%N
  | _ => True
  end.

(** A log with a header that has two fields only, after one good commit. *)
Definition truncated_log : str :=
  lit "abc123|Jane Doe|2024-01-01T10:00:00+00:00|fix bug"
  ++ newline :: lit "src/a.py"
  ++ newline :: lit "def456|John"
  ++ newline :: lit "src/b.py".

(** A log with blank lines and the same file under two commits. *)
Definition two_commit_log : str :=
  lit "abc123|Jane Doe|2024-01-01T10:00:00+00:00|fix bug"
  ++ newline :: lit "src/a.py" ++ newline :: newline
  :: lit "def456|John Roe|2024-01-01T11:30:00+00:00|fix it again"
  ++ newline :: lit "  src/a.py ".

Definition with_smtp_quit (failure : option exn) (w : world) : world :=
  {| today := today w; now := now w;
     git_rev_parse := git_rev_parse w; git_log := git_log w;
     input_username := input_username w;
     input_password := input_password w;
     smtp_connect := smtp_connect w; smtp_login := smtp_login w;
     smtp_sendmail := smtp_sendmail w; smtp_quit := failure;
     mime_build := mime_build w; mime_as_string := mime_as_string w |}.

(** Two agents with the same account: recipient, user name, password. *)
Definition same_account (a b : GitFileEmailAgent) : Prop :=
  recipient_email a = recipient_email b
  /\ gmail_username a = gmail_username b
  /\ gmail_password a = gmail_password b.

(** A log whose one file has markup in its name, and the agent that has
    collected it. *)
Definition markup_log : str :=
  lit "abc123|Jane Doe|2024-01-01T10:00:00+00:00|add page"
  ++ newline :: lit "a<tr>b".

Definition markup_agent : GitFileEmailAgent :=
  set_changed_files
    [{| filename := lit "a<tr>b"; date := lit "2024-01-01";
        branch := lit "main" |}]
    (set_branch_name (Some (lit "main")) example_agent).

(** * Properties *)

Example split_pipe_two : split pipe (lit "a|b") = [lit "a"; lit "b"].
Proof. reflexivity. Qed.

Example split_empty : split pipe [] = [[]].
Proof. reflexivity. Qed.

Example strip_example : strip (lit "  src/a.py ") = lit "src/a.py".
Proof. reflexivity. Qed.

Example dec_example : dec 128 = lit "128".
Proof. reflexivity. Qed.

(** In the sample world the run collects the two entries, makes the four
    calls into [smtplib] and ends with status 0. *)
Example happy_run :
  fst (main example_world) = 0%Z
  /\ changed_files (agent_after (main_run example_world))
     = example_entries (lit "main")
  /\ List.length (filter is_smtp (snd (main example_world))) = 4.
Proof. vm_compute. repeat split. Qed.

Example isoformat_example :
  isoformat {| year := 2024; month := 1; day := 1 |} = lit "2024-01-01".
Proof. reflexivity. Qed.

Example strftime_example :
  strftime (now example_world) = lit "2024-01-01 15:04:05".
Proof. reflexivity. Qed.

Example called_process_error_text :
  value (subprocess_run rev_parse_argv (Exited 128 []) example_agent)
  = Raise {| cls := CalledProcessError;
             message :=
               lit "Command '['git', 'rev-parse', '--abbrev-ref', 'HEAD']' returned non-zero exit status 128." |}.
Proof. reflexivity. Qed.

(** ** Facts about [split], [join] and [contains] *)

Section SplitJoin.

Variable sep : char.

Lemma split_not_nil (s : str) : split sep s <> [].
Proof.
  destruct s as [|c s]; simpl; [discriminate|].
  destruct (N.eqb c sep); [discriminate|].
  destruct (split sep s); discriminate.
Qed.

Lemma split_cons_sep (s : str) : split sep (sep :: s) = [] :: split sep s.
Proof. simpl. now rewrite N.eqb_refl. Qed.

Lemma split_cons_other (c : char) (s : str) :
  c <> sep ->
  exists f fs, split sep s = f :: fs /\ split sep (c :: s) = (c :: f) :: fs.
Proof.
  intros Hc. simpl. apply N.eqb_neq in Hc. rewrite Hc.
  destruct (split sep s) as [|f fs] eqn:E.
  - now apply split_not_nil in E.
  - now exists f, fs.
Qed.

(** A string without the separator is one field. *)
Lemma split_without_sep (s : str) :
  contains sep s = false -> split sep s = [s].
Proof.
  induction s as [|c s IH]; simpl; [reflexivity|].
  intros H. apply orb_false_iff in H as [Hc Hs].
  rewrite N.eqb_sym, Hc, (IH Hs). reflexivity.
Qed.

(** A string with the separator has at least two fields. *)
Lemma split_with_sep (s : str) :
  contains sep s = true -> 2 <= List.length (split sep s).
Proof.
  induction s as [|c s IH]; simpl; [discriminate|].
  intros H. rewrite N.eqb_sym in H.
  destruct (N.eqb c sep) eqn:Ec.
  - simpl. pose proof (split_not_nil s).
    destruct (split sep s); [contradiction|simpl; lia].
  - simpl in H. specialize (IH H).
    destruct (split sep s); simpl in *; lia.
Qed.

Lemma contains_iff_two_fields (s : str) :
  contains sep s = true <-> 2 <= List.length (split sep s).
Proof.
  split; [apply split_with_sep|].
  intros H. destruct (contains sep s) eqn:E; [reflexivity|].
  rewrite (split_without_sep _ E) in H. simpl in H. lia.
Qed.

Lemma contains_app (a b : str) :
  contains sep (a ++ b) = contains sep a || contains sep b.
Proof. unfold contains. apply existsb_app. Qed.

(** Splitting after a field that is free of the separator. *)
Lemma split_field_app (f rest : str) :
  contains sep f = false ->
  split sep (f ++ sep :: rest) = f :: split sep rest.
Proof.
  induction f as [|c f IH]; simpl; intros H.
  - now rewrite N.eqb_refl.
  - apply orb_false_iff in H as [Hc Hf].
    rewrite N.eqb_sym, Hc, (IH Hf). reflexivity.
Qed.

(** [split] undoes [join] on fields free of the separator. *)
Lemma split_join (fields : list str) :
  fields <> [] ->
  Forall (fun f => contains sep f = false) fields ->
  split sep (join [sep] fields) = fields.
Proof.
  induction fields as [|f fs IH]; [congruence|].
  intros _ Hall. inversion Hall as [|? ? Hf Hfs]; subst.
  destruct fs as [|g fs].
  - simpl. now apply split_without_sep.
  - change (join [sep] (f :: g :: fs)) with (f ++ sep :: join [sep] (g :: fs)).
    rewrite (split_field_app _ _ Hf), IH; [reflexivity|discriminate|assumption].
Qed.

(** The fields [split] returns are free of the separator. *)
Lemma split_fields_clean (s : str) :
  Forall (fun f => contains sep f = false) (split sep s).
Proof.
  induction s as [|c s IH]; simpl.
  - repeat constructor.
  - destruct (N.eqb c sep) eqn:Ec.
    + constructor; [reflexivity|assumption].
    + destruct (split sep s) as [|f fs]; [repeat constructor|].
      * simpl. now rewrite N.eqb_sym, Ec.
      * inversion IH; subst. constructor; [|assumption].
        simpl. rewrite N.eqb_sym, Ec. assumption.
Qed.

End SplitJoin.

(** ** One step of the parsing loop *)

Lemma set_changed_files_id (a : GitFileEmailAgent) :
  set_changed_files (changed_files a) a = a.
Proof. now destruct a. Qed.

Lemma for_line_header (line : str) rest cur a f0 f1 f2 more :
  is_header line = true ->
  split pipe line = f0 :: f1 :: f2 :: more ->
  for_line_in (line :: rest) cur a =
  for_line_in rest (Some {| commit_hash := f0;
                            commit_date := prefix 10 f2;
                            author := f1 |}) a.
Proof.
  intros Hh Hs. unfold is_header in Hh. simpl for_line_in.
  rewrite Hh, Hs. unfold bind, index. simpl.
  now destruct (for_line_in rest _ a) as [[r s] t].
Qed.

Lemma for_line_short_header (line : str) rest cur a :
  ill_formed line ->
  for_line_in (line :: rest) cur a = (Raise index_error, a, []).
Proof.
  intros [Hh Hlen]. pose proof (split_with_sep _ _ Hh) as H2.
  unfold is_header in Hh. simpl for_line_in. rewrite Hh.
  destruct (split pipe line) as [|f0 [|f1 [|f2 more]]]; simpl in *; try lia.
  reflexivity.
Qed.

Lemma for_line_file (line : str) rest info a :
  is_file_line line = true ->
  for_line_in (line :: rest) (Some info) a =
  for_line_in rest (Some info)
    (set_changed_files
       (changed_files a ++ [{| filename := strip line;
                               date := commit_date info;
                               branch := stamp a |}]) a).
Proof.
  unfold is_file_line, is_header. intros H.
  apply andb_true_iff in H as [Hh Ht]. apply negb_true_iff in Hh.
  simpl for_line_in. rewrite Hh, Ht. unfold bind, self, update. simpl.
  now destruct (for_line_in rest _ _) as [[r s] t].
Qed.

Lemma for_line_skip (line : str) rest cur a :
  is_header line = false ->
  is_file_line line = false \/ cur = None ->
  for_line_in (line :: rest) cur a = for_line_in rest cur a.
Proof.
  unfold is_file_line, is_header. intros Hh H.
  simpl for_line_in. rewrite Hh in *. simpl in H.
  destruct H as [H | H]; [rewrite H | subst cur].
  - reflexivity.
  - now destruct (truthy (strip line)).
Qed.

(** ** The specification's reading of the log *)

Lemma last_header_snoc_header seen line :
  is_header line = true -> last_header (seen ++ [line]) = Some line.
Proof.
  intros H. unfold last_header. rewrite rev_unit. simpl. now rewrite H.
Qed.

Lemma last_header_snoc_other seen line :
  is_header line = false -> last_header (seen ++ [line]) = last_header seen.
Proof.
  intros H. unfold last_header. rewrite rev_unit. simpl. now rewrite H.
Qed.

Lemma entry_of_header br seen line :
  is_header line = true -> entry_of br seen line = [].
Proof. intros H. unfold entry_of, is_file_line. now rewrite H. Qed.

(** The loop computes [entries_of], provided every header has its three
    fields: it returns, leaves the console alone, and appends to
    [self.changed_files] the entries the specification describes. *)
Lemma for_line_in_returns rest : forall seen cur a,
  option_map commit_date cur = option_map header_date (last_header seen) ->
  Forall well_formed rest ->
  for_line_in rest cur a =
  (Return tt,
   set_changed_files (changed_files a ++ entries_of (stamp a) seen rest) a,
   []).
Proof.
  induction rest as [|line rest IH]; intros seen cur a Hcur Hwf.
  - simpl. now rewrite app_nil_r, set_changed_files_id.
  - inversion Hwf as [|? ? Hline Hrest]; subst.
    destruct (is_header line) eqn:Hh.
    + specialize (Hline Hh).
      destruct (split pipe line) as [|f0 [|f1 [|f2 more]]] eqn:Hs;
        simpl in Hline; try lia.
      rewrite (for_line_header _ _ _ _ Hh Hs).
      rewrite (IH (seen ++ [line])); [|  |assumption].
      * simpl entries_of. now rewrite (entry_of_header _ _ _ Hh).
      * rewrite (last_header_snoc_header _ _ Hh). simpl.
        unfold header_date. now rewrite Hs.
    + assert (Hnext : option_map commit_date cur =
                      option_map header_date (last_header (seen ++ [line])))
        by now rewrite (last_header_snoc_other _ _ Hh).
      simpl entries_of. unfold entry_of.
      destruct (is_file_line line) eqn:Hf.
      * destruct cur as [info|].
        -- rewrite (for_line_file _ _ _ _ Hf).
           rewrite (IH (seen ++ [line]) _ _ Hnext Hrest).
           destruct (last_header seen) as [h|]; [|discriminate].
           simpl in Hcur. injection Hcur as Hcur. rewrite Hcur.
           unfold stamp. simpl. now rewrite <- app_assoc.
        -- rewrite (for_line_skip _ _ _ Hh (or_intror eq_refl)).
           rewrite (IH (seen ++ [line]) _ _ Hnext Hrest).
           destruct (last_header seen); [discriminate|reflexivity].
      * rewrite (for_line_skip _ _ _ Hh (or_introl Hf)).
        now rewrite (IH (seen ++ [line]) _ _ Hnext Hrest).
Qed.

(** A header with fewer than three fields makes the loop raise
    [IndexError]. *)
Lemma for_line_in_raises rest : forall cur a,
  Exists ill_formed rest ->
  exists a', for_line_in rest cur a = (Raise index_error, a', []).
Proof.
  induction rest as [|line rest IH]; intros cur a Hex.
  - inversion Hex.
  - destruct (is_header line) eqn:Hh.
    + destruct (split pipe line) as [|f0 [|f1 [|f2 more]]] eqn:Hs.
      * now apply split_not_nil in Hs.
      * exists a. apply for_line_short_header. split; [assumption|].
        rewrite Hs. simpl. lia.
      * exists a. apply for_line_short_header. split; [assumption|].
        rewrite Hs. simpl. lia.
      * rewrite (for_line_header _ _ _ _ Hh Hs). apply IH.
        inversion Hex as [? ? [_ Hlen]|]; subst; [|assumption].
        rewrite Hs in Hlen. simpl in Hlen. lia.
    + assert (Hrest : Exists ill_formed rest).
      { inversion Hex as [? ? [Hh' _]|]; subst; [congruence|assumption]. }
      destruct (is_file_line line) eqn:Hf.
      * destruct cur as [info|].
        -- rewrite (for_line_file _ _ _ _ Hf). now apply IH.
        -- rewrite (for_line_skip _ _ _ Hh (or_intror eq_refl)). now apply IH.
      * rewrite (for_line_skip _ _ _ Hh (or_introl Hf)). now apply IH.
Qed.

Lemma well_formed_dec (line : str) : {well_formed line} + {ill_formed line}.
Proof.
  unfold well_formed, ill_formed.
  destruct (is_header line).
  - destruct (le_lt_dec 3 (List.length (split pipe line))).
    + left. auto.
    + right. auto.
  - left. discriminate.
Qed.

Lemma all_well_formed_or_not (lines : list str) :
  Forall well_formed lines \/ Exists ill_formed lines.
Proof.
  induction lines as [|l lines [IH|IH]].
  - left. constructor.
  - destruct (well_formed_dec l); [left|right]; now constructor.
  - right. now apply Exists_cons_tl.
Qed.

Lemma ill_formed_not_well_formed (lines : list str) :
  Exists ill_formed lines -> ~ Forall well_formed lines.
Proof.
  intros Hex Hall. apply Exists_exists in Hex as [l [Hin [Hh Hlen]]].
  rewrite Forall_forall in Hall. specialize (Hall l Hin Hh). lia.
Qed.

(** ** The Change Collector as a whole *)

Lemma truthy_true {A} (l : list A) : l <> [] -> truthy l = true.
Proof. destruct l; [congruence|reflexivity]. Qed.

Lemma truthy_false {A} (l : list A) : truthy l = false -> l = [].
Proof. destruct l; [reflexivity|discriminate]. Qed.

(** A log with a well-formed header on every ['|'] line: the collector
    returns the entries of the log, stores them in the agent and runs one
    query. *)
Lemma collector_returns (w : world) (a : GitFileEmailAgent) (out : str) :
  git_log w = Exited 0 out ->
  strip out <> [] ->
  Forall well_formed (log_lines out) ->
  get_files_changed_today w a =
  (Return (entries_of (stamp a) [] (log_lines out)),
   set_changed_files (entries_of (stamp a) [] (log_lines out)) a,
   [Run (log_argv (today w))]).
Proof.
  intros Hlog Hout Hwf.
  unfold get_files_changed_today, try_except, subprocess_run.
  rewrite Hlog. unfold bind at 1. unfold bind at 1. simpl.
  rewrite (truthy_true Hout). simpl.
  unfold bind, update, self. simpl.
  fold (log_lines out).
  rewrite (@for_line_in_returns (log_lines out) [] None
             (set_changed_files [] a) eq_refl Hwf).
  reflexivity.
Qed.

(** A log with a header of fewer than three fields: the collector raises
    [IndexError], which no clause of the method handles. *)
Lemma collector_raises (w : world) (a : GitFileEmailAgent) (out : str) :
  git_log w = Exited 0 out ->
  strip out <> [] ->
  Exists ill_formed (log_lines out) ->
  exists a',
    get_files_changed_today w a =
    (Raise index_error, a', [Run (log_argv (today w))]).
Proof.
  intros Hlog Hout Hex.
  destruct (for_line_in_raises None (set_changed_files [] a) Hex)
    as [a' Ha'].
  exists a'.
  unfold get_files_changed_today, try_except, subprocess_run.
  rewrite Hlog. unfold bind at 1. unfold bind at 1. simpl.
  rewrite (truthy_true Hout). simpl.
  unfold bind, update, self. simpl.
  fold (log_lines out). rewrite Ha'. reflexivity.
Qed.

(** No output at all: the early return. *)
Lemma collector_no_output (w : world) (a : GitFileEmailAgent) (out : str) :
  git_log w = Exited 0 out ->
  strip out = [] ->
  get_files_changed_today w a =
  (Return [], a,
   [Run (log_argv (today w)); Print (lit "No commits found for today")]).
Proof.
  intros Hlog Hout.
  unfold get_files_changed_today, try_except, subprocess_run.
  rewrite Hlog. unfold bind at 1. unfold bind at 1. simpl.
  rewrite Hout. reflexivity.
Qed.

(** ** The Branch Resolver *)

Lemma branch_resolved (w : world) (a : GitFileEmailAgent) (out : str) :
  git_rev_parse w = Exited 0 out ->
  get_current_branch w a =
  (Return (Some (strip out)), set_branch_name (Some (strip out)) a,
   [Run rev_parse_argv]).
Proof.
  intros H. unfold get_current_branch, try_except, subprocess_run.
  rewrite H. reflexivity.
Qed.

(** Whatever the resolver returns as a name is the name the agent holds
    afterwards. *)
Lemma branch_returned_is_stored (w : world) (a : GitFileEmailAgent) b :
  value (get_current_branch w a) = Return (Some b) ->
  branch_name (agent_after (get_current_branch w a)) = Some b.
Proof.
  unfold get_current_branch, try_except, subprocess_run.
  destruct (git_rev_parse w) as [[|rc] out|sig|msg]; simpl;
    try discriminate.
  intros H. now injection H as ->.
Qed.

Lemma stamp_resolved (a : GitFileEmailAgent) (b : str) :
  branch_name a = Some b -> b <> [] -> stamp a = b.
Proof.
  intros Ha Hb. unfold stamp. rewrite Ha. simpl.
  now rewrite (truthy_true Hb).
Qed.

Lemma well_formedb_sound (lines : list str) :
  forallb well_formedb lines = true -> Forall well_formed lines.
Proof.
  intros H. rewrite forallb_forall in H. apply Forall_forall.
  intros l Hin Hh. specialize (H l Hin). unfold well_formedb in H.
  rewrite Hh in H. rewrite orb_false_l in H. now apply Nat.leb_le in H.
Qed.

Lemma example_log_well_formed : Forall well_formed (log_lines example_log).
Proof. apply well_formedb_sound. vm_compute. reflexivity. Qed.

(** C1: for the log made of the header
    [abc123|Jane Doe|2024-01-01T10:00:00+00:00|fix bug] and the lines
    [src/a.py] and [src/b.py], the collector, run after the branch was
    resolved to a name [b], returns and stores exactly two entries, in that
    order: [src/a.py] and [src/b.py], both dated [2024-01-01] and both on
    branch [b]. *)
Theorem C1_example_log_two_entries
    (w : world) (a : GitFileEmailAgent) (b : str) :
  git_log w = Exited 0 example_log ->
  value (get_current_branch w a) = Return (Some b) ->
  b <> [] ->
  let resolved := agent_after (get_current_branch w a) in
  value (get_files_changed_today w resolved) = Return (example_entries b)
  /\ changed_files (agent_after (get_files_changed_today w resolved))
     = example_entries b.
Proof.
  intros Hlog Hb Hne resolved.
  assert (Hstamp : stamp resolved = b)
    by (apply stamp_resolved; [now apply branch_returned_is_stored|assumption]).
  assert (Hout : strip example_log <> []) by (vm_compute; discriminate).
  rewrite (collector_returns w resolved Hlog Hout example_log_well_formed).
  rewrite Hstamp. split; vm_compute; reflexivity.
Qed.

Lemma C1_example_log_two_entries_witness :
  git_log example_world = Exited 0 example_log
  /\ value (get_current_branch example_world example_agent)
     = Return (Some (lit "main"))
  /\ lit "main" <> []
  /\ value (get_files_changed_today example_world
              (agent_after (get_current_branch example_world example_agent)))
     = Return (example_entries (lit "main")).
Proof.
  assert (H1 : git_log example_world = Exited 0 example_log) by reflexivity.
  assert (H2 : value (get_current_branch example_world example_agent)
               = Return (Some (lit "main"))) by (vm_compute; reflexivity).
  assert (H3 : lit "main" <> []) by discriminate.
  split; [exact H1|]. split; [exact H2|]. split; [exact H3|].
  exact (proj1 (C1_example_log_two_entries example_world example_agent
                  H1 H2 H3)).
Defined.

(** ** Which header an entry belongs to *)

Lemma last_header_none (seen : list str) :
  last_header seen = None <-> Forall plain seen.
Proof.
  induction seen as [|line seen IH] using rev_ind.
  - split; [constructor|reflexivity].
  - destruct (is_header line) eqn:Hh.
    + rewrite (last_header_snoc_header _ _ Hh). split; [discriminate|].
      intros H. apply Forall_app in H as [_ H]. inversion H; subst.
      unfold plain in *. congruence.
    + rewrite (last_header_snoc_other _ _ Hh), IH. split.
      * intros H. apply Forall_app. split; [assumption|].
        now repeat constructor.
      * intros H. now apply Forall_app in H as [H _].
Qed.

(** The last header is a header, and only plain lines follow it. *)
Lemma last_header_some (seen : list str) (h : str) :
  last_header seen = Some h ->
  exists before between,
    seen = before ++ h :: between
    /\ is_header h = true
    /\ Forall plain between.
Proof.
  induction seen as [|line seen IH] using rev_ind; [discriminate|].
  destruct (is_header line) eqn:Hh.
  - rewrite (last_header_snoc_header _ _ Hh). intros H. injection H as <-.
    exists seen, []. repeat split; [assumption|constructor].
  - rewrite (last_header_snoc_other _ _ Hh). intros H.
    destruct (IH H) as [before [between [Hs [Hhh Hpl]]]].
    exists before, (between ++ [line]). repeat split.
    + rewrite Hs, <- app_assoc. reflexivity.
    + assumption.
    + apply Forall_app. split; [assumption|now repeat constructor].
Qed.

(** [entries_of] looks at the lines read so far only through their last
    header. *)
Lemma entries_of_ext br rest : forall seen1 seen2,
  last_header seen1 = last_header seen2 ->
  entries_of br seen1 rest = entries_of br seen2 rest.
Proof.
  induction rest as [|line rest IH]; intros seen1 seen2 H;
    [reflexivity|].
  simpl. unfold entry_of. rewrite H. f_equal. apply IH.
  destruct (is_header line) eqn:Hh.
  - now rewrite !(last_header_snoc_header _ _ Hh).
  - now rewrite !(last_header_snoc_other _ _ Hh).
Qed.

(** Lines read before any header leave no entry. *)
Lemma entries_of_before_header br skipped : forall seen rest,
  last_header seen = None ->
  Forall plain skipped ->
  entries_of br seen (skipped ++ rest) = entries_of br [] rest.
Proof.
  induction skipped as [|line skipped IH]; intros seen rest Hseen Hpl.
  - simpl. now apply entries_of_ext.
  - inversion Hpl as [|? ? Hline Hrest]; subst. simpl.
    unfold entry_of. rewrite Hseen.
    replace (if is_file_line line then [] else []) with (@nil file_info)
      by now destruct (is_file_line line).
    simpl. apply IH; [|assumption].
    now rewrite (last_header_snoc_other _ _ Hline).
Qed.

(** Every entry comes from a file line, and carries the date of the last
    header read before that line. *)
Lemma in_entries_of br e rest : forall seen,
  In e (entries_of br seen rest) ->
  exists skipped line rest' h,
    rest = skipped ++ line :: rest'
    /\ is_file_line line = true
    /\ last_header (seen ++ skipped) = Some h
    /\ e = {| filename := strip line; date := header_date h; branch := br |}.
Proof.
  induction rest as [|line rest IH]; intros seen Hin; [contradiction|].
  simpl in Hin. apply in_app_or in Hin as [Hin|Hin].
  - unfold entry_of in Hin.
    destruct (is_file_line line) eqn:Hf; [|contradiction].
    destruct (last_header seen) as [h|] eqn:Hl; [|contradiction].
    destruct Hin as [<-|[]].
    exists [], line, rest, h. rewrite app_nil_r. auto.
  - destruct (IH _ Hin) as [skipped [l [rest' [h [Hs [Hf [Hl He]]]]]]].
    exists (line :: skipped), l, rest', h. repeat split; try assumption.
    + simpl. now rewrite Hs.
    + now rewrite <- app_assoc in Hl.
Qed.

(** What the collector returns, when it returns, on any output. *)
Lemma collector_result (w : world) (a : GitFileEmailAgent) out es :
  git_log w = Exited 0 out ->
  value (get_files_changed_today w a) = Return es ->
  es = entries_of (stamp a) [] (log_lines out).
Proof.
  intros Hlog Hes.
  destruct (strip out) as [|c s] eqn:Hout.
  - rewrite (collector_no_output w a Hlog Hout) in Hes.
    injection Hes as <-. unfold log_lines. rewrite Hout. reflexivity.
  - assert (Hne : strip out <> []) by (rewrite Hout; discriminate).
    destruct (all_well_formed_or_not (log_lines out)) as [Hwf|Hill].
    + rewrite (collector_returns w a Hlog Hne Hwf) in Hes.
      now injection Hes as <-.
    + destruct (collector_raises w a Hlog Hne Hill) as [a' Ha'].
      rewrite Ha' in Hes. discriminate.
Qed.

(** C2: for every log output the collector parses, the entries are those
    of the file lines that follow a header, each with the date (the first 10
    characters of the third field) of the header that most recently
    preceded its line; and a line read before any header is dropped: the
    entries are those of the lines after it. *)
Theorem C2_entry_date_is_last_header_date
    (w : world) (a : GitFileEmailAgent) (out : str) (es : list file_info) :
  git_log w = Exited 0 out ->
  value (get_files_changed_today w a) = Return es ->
  es = entries_of (stamp a) [] (log_lines out)
  /\ (forall e, In e es ->
        exists before header between line rest,
          log_lines out = before ++ header :: between ++ line :: rest
          /\ is_header header = true
          /\ Forall plain between
          /\ is_file_line line = true
          /\ filename e = strip line
          /\ date e = prefix 10 (nth 2 (split pipe header) [])
          /\ branch e = stamp a)
  /\ (forall skipped line rest,
        log_lines out = skipped ++ line :: rest ->
        Forall plain skipped ->
        plain line ->
        es = entries_of (stamp a) [] rest).
Proof.
  intros Hlog Hes. pose proof (collector_result w a Hlog Hes) as Hspec.
  split; [assumption|]. split.
  - intros e Hin. rewrite Hspec in Hin.
    destruct (in_entries_of _ _ _ _ Hin)
      as [skipped [line [rest [h [Hs [Hf [Hl He]]]]]]].
    simpl in Hl.
    destruct (last_header_some _ Hl) as [before [between [Hsk [Hh Hpl]]]].
    exists before, h, between, line, rest. subst e. simpl.
    repeat split; try assumption.
    rewrite Hs, Hsk, <- app_assoc. reflexivity.
  - intros skipped line rest Hs Hsk Hline. rewrite Hspec, Hs.
    change (skipped ++ line :: rest) with (skipped ++ [line] ++ rest).
    rewrite app_assoc. apply entries_of_before_header; [reflexivity|].
    apply Forall_app. split; [assumption|now repeat constructor].
Qed.

Lemma C2_entry_date_is_last_header_date_witness :
  let w := with_git_log (Exited 0 stray_log) example_world in
  let a := set_branch_name (Some (lit "main")) example_agent in
  let es := [{| filename := lit "src/a.py";
                date := lit "2024-01-01";
                branch := lit "main" |}] in
  git_log w = Exited 0 stray_log
  /\ value (get_files_changed_today w a) = Return es
  /\ es = entries_of (stamp a) [] (log_lines stray_log).
Proof.
  intros w a es.
  assert (H1 : git_log w = Exited 0 stray_log) by reflexivity.
  assert (H2 : value (get_files_changed_today w a) = Return es)
    by (vm_compute; reflexivity).
  split; [exact H1|]. split; [exact H2|].
  exact (proj1 (C2_entry_date_is_last_header_date w a H1 H2)).
Defined.

(** ** Headers with too few or too many fields *)

Lemma log_lines_no_output (out : str) :
  strip out = [] -> log_lines out = [[]].
Proof. intros H. unfold log_lines. now rewrite H. Qed.

Lemma ill_formed_needs_output (out : str) :
  Exists ill_formed (log_lines out) -> strip out <> [].
Proof.
  intros Hex Hout. rewrite (log_lines_no_output _ Hout) in Hex.
  inversion Hex as [? ? [Hh _]|? ? Hnil]; subst; [discriminate|inversion Hnil].
Qed.

(** C9 (as amended): the collector returns exactly when every line with a
    ['|'] splits into at least three fields, and raises [IndexError]
    otherwise.  On a line with a ['|'] and fewer than three fields it is the
    access [parts[2]] that is out of range; [parts[1]] always exists,
    because a line with a ['|'] has at least two fields. *)
Theorem C9_collector_total_iff_three_fields
    (w : world) (a : GitFileEmailAgent) (out : str) :
  git_log w = Exited 0 out ->
  ((exists es, value (get_files_changed_today w a) = Return es)
   <-> Forall well_formed (log_lines out))
  /\ (Exists ill_formed (log_lines out) ->
      value (get_files_changed_today w a) = Raise index_error)
  /\ (forall line s, is_header line = true ->
        (exists f, value (index (split pipe line) 1 s) = Return f)
        /\ (value (index (split pipe line) 2 s) = Raise index_error
            <-> List.length (split pipe line) < 3)).
Proof.
  intros Hlog.
  assert (Hraise : Exists ill_formed (log_lines out) ->
                   value (get_files_changed_today w a) = Raise index_error).
  { intros Hill.
    destruct (collector_raises w a Hlog (ill_formed_needs_output _ Hill) Hill)
      as [a' Ha'].
    now rewrite Ha'. }
  split; [|split; [exact Hraise|]].
  - split.
    + intros [es Hes].
      destruct (all_well_formed_or_not (log_lines out)) as [Hwf|Hill];
        [assumption|].
      rewrite (Hraise Hill) in Hes. discriminate.
    + intros Hwf. destruct (strip out) as [|c s] eqn:Hout.
      * exists []. now rewrite (collector_no_output w a Hlog Hout).
      * assert (Hne : strip out <> []) by (rewrite Hout; discriminate).
        eexists. now rewrite (collector_returns w a Hlog Hne Hwf).
  - intros line s Hh. pose proof (split_with_sep _ _ Hh) as H2.
    unfold index.
    destruct (split pipe line) as [|f0 [|f1 [|f2 more]]]; simpl in *;
      try lia.
    + split; [now exists f1|]. split; [lia|reflexivity].
    + split; [now exists f1|]. split; [discriminate|lia].
Qed.

Lemma C9_collector_total_iff_three_fields_witness :
  let w := with_git_log (Exited 0 short_header_log) example_world in
  git_log w = Exited 0 short_header_log
  /\ value (get_files_changed_today w example_agent) = Raise index_error.
Proof.
  intros w.
  assert (H1 : git_log w = Exited 0 short_header_log) by reflexivity.
  split; [exact H1|].
  apply (proj1 (proj2 (C9_collector_total_iff_three_fields w example_agent H1))).
  apply Exists_cons_tl, Exists_cons_hd. split; vm_compute; [reflexivity|lia].
Defined.

(** C9 as the claim words it fails: on the line [docs/a|b.txt], which has a
    ['|'] and fewer than three fields, the access [parts[1]] is in range. *)
Lemma C9_parts_1_in_range :
  ~ (forall line s,
       is_header line = true ->
       List.length (split pipe line) < 3 ->
       value (index (split pipe line) 1 s) = Raise index_error
       /\ value (index (split pipe line) 2 s) = Raise index_error).
Proof.
  intros H.
  destruct (H (lit "docs/a|b.txt") example_agent) as [H1 _].
  - reflexivity.
  - vm_compute. lia.
  - vm_compute in H1. discriminate.
Qed.

(** The collector on a non-empty output, in terms of the parsing loop. *)
Lemma collector_with_output (w : world) (a : GitFileEmailAgent) (out : str) :
  git_log w = Exited 0 out ->
  strip out <> [] ->
  get_files_changed_today w a =
  match for_line_in (log_lines out) None (set_changed_files [] a) with
  | (Return _, s, t) =>
      (Return (changed_files s), s, Run (log_argv (today w)) :: t)
  | (Raise e, s, t) =>
      if exn_class_eqb (cls e) CalledProcessError then
        (Return [], s,
         Run (log_argv (today w)) :: t
         ++ [Print (lit "Error getting changed files: " ++ message e)])
      else (Raise e, s, Run (log_argv (today w)) :: t)
  end.
Proof.
  intros Hlog Hout.
  unfold get_files_changed_today, try_except, subprocess_run.
  rewrite Hlog. unfold bind at 1. unfold bind at 1. simpl.
  rewrite (truthy_true Hout). simpl.
  unfold bind, update, self. simpl. fold (log_lines out).
  destruct (for_line_in (log_lines out) None (set_changed_files [] a))
    as [[[u|e] s] t]; simpl.
  - now rewrite app_nil_r.
  - destruct (exn_class_eqb (cls e) CalledProcessError); simpl;
      rewrite ?app_nil_r; reflexivity.
Qed.

(** A header line is read through its first three fields only. *)
Lemma for_line_header_fields (line : str) rest cur a :
  3 <= List.length (split pipe line) ->
  for_line_in (line :: rest) cur a =
  for_line_in rest
    (Some {| commit_hash := nth 0 (split pipe line) [];
             commit_date := prefix 10 (nth 2 (split pipe line) []);
             author := nth 1 (split pipe line) [] |}) a.
Proof.
  intros Hlen.
  assert (Hh : is_header line = true)
    by (apply contains_iff_two_fields; lia).
  destruct (split pipe line) as [|f0 [|f1 [|f2 more]]] eqn:Hs;
    simpl in Hlen; try lia.
  now rewrite (for_line_header _ _ _ _ Hh Hs).
Qed.

(** The loop on [line :: rest] is its first step followed by the loop on
    [rest]: two continuations that agree give the same result. *)
Lemma for_line_in_cons_ext (line : str) (rest rest' : list str) :
  (forall cur a, for_line_in rest cur a = for_line_in rest' cur a) ->
  forall cur a,
    for_line_in (line :: rest) cur a = for_line_in (line :: rest') cur a.
Proof.
  intros H cur a. simpl. destruct (contains pipe line).
  - unfold bind.
    destruct (index (split pipe line) 0 a) as [[[f0|e0] s0] t0];
      [|reflexivity].
    destruct (index (split pipe line) 1 s0) as [[[f1|e1] s1] t1];
      [|reflexivity].
    destruct (index (split pipe line) 2 s1) as [[[f2|e2] s2] t2];
      [|reflexivity].
    now rewrite H.
  - destruct (truthy (strip line)), cur as [info|]; try apply H.
    unfold bind, self, update. simpl. now rewrite H.
Qed.

Lemma for_line_in_same_fields before : forall header header' rest cur a,
  3 <= List.length (split pipe header) ->
  firstn 3 (split pipe header') = firstn 3 (split pipe header) ->
  for_line_in (before ++ header' :: rest) cur a =
  for_line_in (before ++ header :: rest) cur a.
Proof.
  induction before as [|line before IH];
    intros header header' rest cur a Hlen Hfields.
  - simpl app.
    assert (Hlen' : 3 <= List.length (split pipe header')).
    { apply (f_equal (@List.length str)) in Hfields.
      rewrite !length_firstn in Hfields. lia. }
    rewrite (for_line_header_fields header) by assumption.
    rewrite (for_line_header_fields header') by assumption.
    destruct (split pipe header) as [|f0 [|f1 [|f2 more]]];
      simpl in Hlen; try lia.
    destruct (split pipe header') as [|g0 [|g1 [|g2 more']]];
      simpl in Hlen'; try lia.
    simpl in Hfields. injection Hfields as -> -> ->. reflexivity.
  - simpl app. apply for_line_in_cons_ext. intros cur' a'. now apply IH.
Qed.

(** Any fields free of ['|'] can stand after the first three. *)
Lemma replace_subject (header : str) (subject : list str) :
  3 <= List.length (split pipe header) ->
  Forall (fun f => contains pipe f = false) subject ->
  firstn 3 (split pipe (join [pipe] (firstn 3 (split pipe header) ++ subject)))
  = firstn 3 (split pipe header).
Proof.
  intros Hlen Hsub.
  assert (H3 : List.length (firstn 3 (split pipe header)) = 3)
    by (rewrite length_firstn; lia).
  assert (Hclean : Forall (fun f => contains pipe f = false)
                     (firstn 3 (split pipe header))).
  { pose proof (split_fields_clean pipe header) as Hall.
    rewrite <- (firstn_skipn 3 (split pipe header)) in Hall.
    now apply Forall_app in Hall as [Hall _]. }
  remember (firstn 3 (split pipe header)) as fields eqn:Hf.
  rewrite split_join.
  - rewrite firstn_app, H3, Nat.sub_diag, firstn_O, app_nil_r.
    apply firstn_all2. lia.
  - destruct fields; [discriminate H3|discriminate].
  - apply Forall_app. now split.
Qed.

(** C10: a header that splits into more than four fields (a subject with
    ['|'] characters of its own) is read through its first three fields
    only: hash, author, and the date cut to 10 characters.  Replacing the
    header by any other with the same first three fields changes nothing
    of what the collector returns, stores and does. *)
Theorem C10_extra_header_fields_ignored
    (w : world) (a : GitFileEmailAgent) (out out' : str)
    (before rest : list str) (header header' : str) :
  git_log w = Exited 0 out ->
  log_lines out = before ++ header :: rest ->
  4 < List.length (split pipe header) ->
  log_lines out' = before ++ header' :: rest ->
  firstn 3 (split pipe header') = firstn 3 (split pipe header) ->
  get_files_changed_today (with_git_log (Exited 0 out') w) a
  = get_files_changed_today w a
  /\ (forall lines cur s,
        for_line_in (header :: lines) cur s =
        for_line_in lines
          (Some {| commit_hash := nth 0 (split pipe header) [];
                   commit_date := prefix 10 (nth 2 (split pipe header) []);
                   author := nth 1 (split pipe header) [] |}) s).
Proof.
  intros Hlog Hlines Hlen Hlines' Hfields.
  assert (Hlen3 : 3 <= List.length (split pipe header)) by lia.
  split; [|intros; now apply for_line_header_fields].
  assert (Hout : strip out <> []).
  { intros Hout. rewrite (log_lines_no_output _ Hout) in Hlines.
    destruct before as [|l [|l' before]]; try discriminate.
    injection Hlines as <- _. simpl in Hlen. lia. }
  assert (Hout' : strip out' <> []).
  { intros Hout'. rewrite (log_lines_no_output _ Hout') in Hlines'.
    destruct before as [|l [|l' before]]; try discriminate.
    injection Hlines' as <- _.
    apply (f_equal (@List.length str)) in Hfields.
    rewrite !length_firstn in Hfields.
    change (List.length (split pipe [])) with 1 in Hfields. lia. }
  rewrite (collector_with_output (with_git_log (Exited 0 out') w) a
             eq_refl Hout').
  rewrite (collector_with_output w a Hlog Hout).
  simpl today. rewrite Hlines, Hlines'.
  now rewrite (for_line_in_same_fields before header header') by assumption.
Qed.

Lemma C10_extra_header_fields_ignored_witness :
  let w := with_git_log (Exited 0 piped_subject_log) example_world in
  let header := lit "abc123|Jane Doe|2024-01-01T10:00:00+00:00|fix a|b and c|d" in
  let header' := lit "abc123|Jane Doe|2024-01-01T10:00:00+00:00|fix bug" in
  git_log w = Exited 0 piped_subject_log
  /\ log_lines piped_subject_log = [] ++ header :: [lit "src/a.py"]
  /\ 4 < List.length (split pipe header)
  /\ log_lines plain_subject_log = [] ++ header' :: [lit "src/a.py"]
  /\ firstn 3 (split pipe header') = firstn 3 (split pipe header)
  /\ get_files_changed_today
       (with_git_log (Exited 0 plain_subject_log) w) example_agent
     = get_files_changed_today w example_agent.
Proof.
  intros w header header'.
  assert (H1 : git_log w = Exited 0 piped_subject_log) by reflexivity.
  assert (H2 : log_lines piped_subject_log
               = [] ++ header :: [lit "src/a.py"])
    by (vm_compute; reflexivity).
  assert (H3 : 4 < List.length (split pipe header)) by (vm_compute; lia).
  assert (H4 : log_lines plain_subject_log
               = [] ++ header' :: [lit "src/a.py"])
    by (vm_compute; reflexivity).
  assert (H5 : firstn 3 (split pipe header') = firstn 3 (split pipe header))
    by (vm_compute; reflexivity).
  split; [exact H1|]. split; [exact H2|]. split; [exact H3|].
  split; [exact H4|]. split; [exact H5|].
  exact (proj1 (@C10_extra_header_fields_ignored w example_agent
                  piped_subject_log plain_subject_log [] [lit "src/a.py"]
                  header header' H1 H2 H3 H4 H5)).
Defined.

(** ** Rendering and sending *)

Lemma print_all_trace (l : list str) (a : GitFileEmailAgent) :
  print_all l a = (Return tt, a, map Print l).
Proof.
  induction l as [|s l IH]; [reflexivity|].
  simpl. unfold bind, print, emit. now rewrite IH.
Qed.

(** The loop of [create_html_table] appends one row per entry, in order. *)
Lemma rows_appended (l : list file_info) (html : str) :
  fold_left (fun html file_info => html ++ html_row file_info) l html
  = html ++ List.concat (map html_row l).
Proof.
  revert html. induction l as [|f l IH]; intros html; simpl.
  - now rewrite app_nil_r.
  - now rewrite IH, <- app_assoc.
Qed.

(** Rendering reads the agent and the clock and does nothing else. *)
Lemma create_html_table_pure (w : world) (a : GitFileEmailAgent) :
  exists html, create_html_table w a = (Return html, a, []).
Proof.
  unfold create_html_table, bind, self. simpl.
  destruct (truthy (changed_files a)); simpl; eexists; reflexivity.
Qed.

(** The whole run, one stage after the other. *)
Lemma run_stages (w : world) (a : GitFileEmailAgent) :
  run w a =
  let '(rb, s1, tb) := get_current_branch w a in
  let t0 := [Print banner; Print (lit "Git File Email Agent"); Print banner;
             Print (newline :: lit "1. Fetching current branch...")] ++ tb in
  match rb with
  | Raise e => (Raise e, s1, t0)
  | Return b =>
      if truthy_option b then
        let '(rc, s2, tc) := get_files_changed_today w s1 in
        let t1 :=
          t0 ++ [Print (lit "   " ++ check_mark :: lit " Current branch: "
                        ++ format_option (branch_name s1));
                 Print (newline :: lit "2. Fetching files changed today...")]
          ++ tc in
        match rc with
        | Raise e => (Raise e, s2, t1)
        | Return _ =>
            let '(rs, s3, ts) := send_email w s2 in
            let t2 :=
              t1 ++ [Print (lit "   " ++ check_mark :: lit " Found "
                            ++ dec (N.of_nat (List.length (changed_files s2)))
                            ++ lit " file(s) changed today")]
              ++ (if truthy (changed_files s2) then
                    Print (newline :: lit "3. Files found:")
                    :: map Print
                         (map (fun file_info =>
                                 lit "   - " ++ filename file_info ++ lit " ("
                                 ++ date file_info ++ lit ")")
                              (changed_files s2))
                  else [])
              ++ [Print (newline :: lit "4. Sending email...")] ++ ts in
            match rs with
            | Raise e => (Raise e, s3, t2)
            | Return success =>
                (Return success, s3, t2 ++ [Print (newline :: banner)])
            end
        end
      else (Return false, s1,
            t0 ++ [Print (cross_mark :: lit " Failed to get branch name")])
  end.
Proof.
  unfold run.
  generalize (get_current_branch w) (get_files_changed_today w)
             (send_email w).
  intros resolve collect send.
  unfold bind, print, emit, self, ret.
  destruct (resolve a) as [[[b|e] s1] tb]; [|reflexivity].
  destruct (truthy_option b); cbn [negb];
    [|now rewrite ?app_nil_r, <- ?app_assoc].
  destruct (collect s1) as [[[l|e] s2] tc];
    [|cbn [app]; now rewrite <- ?app_assoc].
  destruct (truthy (changed_files s2)).
  - rewrite print_all_trace. unfold ret.
    destruct (send s2) as [[[success|e] s3] ts];
      repeat progress (cbn [app]; rewrite ?app_nil_r, <- ?app_assoc);
      reflexivity.
  - destruct (send s2) as [[[success|e] s3] ts];
      repeat progress (cbn [app]; rewrite ?app_nil_r, <- ?app_assoc);
      reflexivity.
Qed.

Lemma printed_app (t1 t2 : trace) :
  printed (t1 ++ t2) = printed t1 ++ printed t2.
Proof.
  induction t1 as [|ev t1 IH]; [reflexivity|].
  destruct ev; simpl; now rewrite IH.
Qed.

Lemma printed_prints (l : list str) : printed (map Print l) = l.
Proof. induction l as [|s l IH]; simpl; now rewrite ?IH. Qed.

Lemma printed_smtp (t : trace) : forallb is_smtp t = true -> printed t = [].
Proof.
  induction t as [|ev t IH]; [reflexivity|].
  simpl. intros H. apply andb_true_iff in H as [Hev Ht].
  destruct ev; try discriminate; now apply IH.
Qed.

(** With nothing to report, nothing is sent. *)
Lemma send_email_nothing (w : world) (a : GitFileEmailAgent) :
  changed_files a = [] ->
  send_email w a =
  (Return false, a, [Print (lit "No files changed today. Email not sent.")]).
Proof.
  intros H. unfold send_email, bind, self. rewrite H. reflexivity.
Qed.

Lemma create_html_table_report (w : world) (a : GitFileEmailAgent) :
  changed_files a <> [] ->
  create_html_table w a = (Return (report (now w) (changed_files a)), a, []).
Proof.
  intros H. unfold create_html_table, bind, self, report.
  rewrite (truthy_true H). cbn [negb]. unfold ret.
  now rewrite rows_appended, <- app_assoc.
Qed.

(** [send_email] on an agent with entries: the calls of the session up to
    and including the first that fails, none after a failure of the
    [email] package, then the closing lines. *)
Lemma send_email_session (w : world) (a : GitFileEmailAgent) :
  changed_files a <> [] ->
  send_email w a =
  (Return (match send_failure w a with None => true | Some _ => false end),
   a,
   firstn (calls_made w a) (session w a) ++ map Print (closing_lines w a)).
Proof.
  intros Hne.
  unfold send_email. unfold bind at 1. unfold self.
  rewrite (truthy_true Hne). cbn [negb].
  unfold try_except. unfold bind at 1.
  rewrite (create_html_table_report w a Hne).
  fold (built_message w a).
  unfold smtp, may_raise, bind, emit, raise, ret.
  unfold closing_lines, send_failure, calls_made, session.
  destruct (mime_build w (built_message w a)) as [e0|].
  { unfold diagnostic.
    destruct (exn_class_eqb (cls e0) SMTPAuthenticationError);
      now rewrite print_all_trace. }
  destruct (smtp_connect w) as [e1|].
  { unfold diagnostic.
    destruct (exn_class_eqb (cls e1) SMTPAuthenticationError);
      now rewrite print_all_trace. }
  destruct (smtp_login w) as [e2|].
  { unfold diagnostic.
    destruct (exn_class_eqb (cls e2) SMTPAuthenticationError);
      now rewrite print_all_trace. }
  destruct (mime_as_string w (built_message w a)) as [e3|].
  { unfold diagnostic.
    destruct (exn_class_eqb (cls e3) SMTPAuthenticationError);
      now rewrite print_all_trace. }
  destruct (smtp_sendmail w) as [e4|].
  { unfold diagnostic.
    destruct (exn_class_eqb (cls e4) SMTPAuthenticationError);
      now rewrite print_all_trace. }
  destruct (smtp_quit w) as [e5|]; [|reflexivity].
  unfold diagnostic.
  destruct (exn_class_eqb (cls e5) SMTPAuthenticationError);
    now rewrite print_all_trace.
Qed.

(** The calls made are calls into [smtplib]. *)
Lemma calls_are_smtp (w : world) (a : GitFileEmailAgent) (n : nat) :
  forallb is_smtp (firstn n (session w a)) = true.
Proof.
  unfold session. do 5 (destruct n as [|n]; [reflexivity|]). reflexivity.
Qed.

(** [send_email] never raises and never changes the agent. *)
Lemma send_email_returns (w : world) (a : GitFileEmailAgent) :
  exists success t, send_email w a = (Return success, a, t).
Proof.
  destruct (changed_files a) as [|f l] eqn:Hfiles.
  - rewrite (send_email_nothing w a Hfiles). eauto.
  - assert (Hne : changed_files a <> []) by (rewrite Hfiles; discriminate).
    rewrite (send_email_session w a Hne). eauto.
Qed.

(** Success needs entries, a message the [email] package accepts and a
    mail server that accepts every call. *)
Lemma send_email_true (w : world) (a : GitFileEmailAgent) :
  value (send_email w a) = Return true ->
  changed_files a <> [] /\ send_failure w a = None.
Proof.
  intros H. destruct (changed_files a) as [|f l] eqn:Hfiles.
  - rewrite (send_email_nothing w a Hfiles) in H. discriminate.
  - assert (Hne : changed_files a <> []) by (rewrite Hfiles; discriminate).
    split; [discriminate|].
    rewrite (send_email_session w a Hne) in H. unfold value in H.
    cbn [fst] in H. now destruct (send_failure w a).
Qed.

(** ** The stages and their traces *)

Lemma for_line_in_silent (lines : list str) : forall cur a,
  trace_of (for_line_in lines cur a) = [].
Proof.
  induction lines as [|line lines IH]; intros cur a; [reflexivity|].
  destruct (is_header line) eqn:Hh.
  - destruct (le_lt_dec 3 (List.length (split pipe line))) as [Hlen|Hlen].
    + rewrite for_line_header_fields by assumption. apply IH.
    + now rewrite for_line_short_header by (split; assumption).
  - destruct (is_file_line line) eqn:Hf.
    + destruct cur as [info|].
      * rewrite (for_line_file _ _ _ _ Hf). apply IH.
      * rewrite (for_line_skip _ _ _ Hh (or_intror eq_refl)). apply IH.
    + rewrite (for_line_skip _ _ _ Hh (or_introl Hf)). apply IH.
Qed.

(** What the Branch Resolver does, by the way its query ends. *)
Lemma resolver_outcomes (w : world) (a : GitFileEmailAgent) :
  match git_rev_parse w with
  | Exited 0 out =>
      get_current_branch w a =
      (Return (Some (strip out)), set_branch_name (Some (strip out)) a,
       [Run rev_parse_argv])
  | Exited _ _ | Killed _ =>
      exists detail,
        get_current_branch w a =
        (Return None, a,
         [Run rev_parse_argv;
          Print (lit "Error getting branch name: " ++ detail)])
  | NotStarted msg =>
      get_current_branch w a =
      (Raise {| cls := FileNotFoundError; message := msg |}, a,
       [Run rev_parse_argv])
  end.
Proof.
  unfold get_current_branch, try_except, subprocess_run.
  destruct (git_rev_parse w) as [[|rc] out|sig|msg];
    try reflexivity; eexists; reflexivity.
Qed.

(** What the Change Collector does when its query fails. *)
Lemma collector_query_fails (w : world) (a : GitFileEmailAgent) :
  match git_log w with
  | Exited 0 out => True
  | Exited _ _ | Killed _ =>
      exists detail,
        get_files_changed_today w a =
        (Return [], a,
         [Run (log_argv (today w));
          Print (lit "Error getting changed files: " ++ detail)])
  | NotStarted msg =>
      get_files_changed_today w a =
      (Raise {| cls := FileNotFoundError; message := msg |}, a,
       [Run (log_argv (today w))])
  end.
Proof.
  unfold get_files_changed_today, try_except, subprocess_run.
  destruct (git_log w) as [[|rc] out|sig|msg];
    try exact I; try reflexivity; eexists; reflexivity.
Qed.

Lemma no_smtp_app (t1 t2 : trace) :
  no_smtp t1 -> no_smtp t2 -> no_smtp (t1 ++ t2).
Proof.
  unfold no_smtp. intros H1 H2. now rewrite forallb_app, H1, H2.
Qed.

Lemma no_smtp_prints (l : list str) : no_smtp (map Print l).
Proof. unfold no_smtp. induction l; simpl; auto. Qed.

Lemma no_log_query_app (t1 t2 : trace) :
  no_log_query t1 -> no_log_query t2 -> no_log_query (t1 ++ t2).
Proof.
  unfold no_log_query. intros H1 H2. now rewrite forallb_app, H1, H2.
Qed.

Lemma resolver_trace (w : world) (a : GitFileEmailAgent) :
  no_smtp (trace_of (get_current_branch w a))
  /\ no_log_query (trace_of (get_current_branch w a)).
Proof.
  pose proof (resolver_outcomes w a) as H.
  destruct (git_rev_parse w) as [[|rc] out|sig|msg].
  - rewrite H. split; reflexivity.
  - destruct H as [detail H]. rewrite H. split; reflexivity.
  - destruct H as [detail H]. rewrite H. split; reflexivity.
  - rewrite H. split; reflexivity.
Qed.

Lemma collector_trace (w : world) (a : GitFileEmailAgent) :
  no_smtp (trace_of (get_files_changed_today w a)).
Proof.
  pose proof (collector_query_fails w a) as H.
  destruct (git_log w) as [[|rc] out|sig|msg] eqn:Hlog.
  2:{ destruct H as [detail H]. now rewrite H. }
  2:{ destruct H as [detail H]. now rewrite H. }
  2:{ now rewrite H. }
  destruct (strip out) as [|c s] eqn:Hout.
  - now rewrite (collector_no_output w a Hlog Hout).
  - assert (Hne : strip out <> []) by (rewrite Hout; discriminate).
    rewrite (collector_with_output w a Hlog Hne).
    pose proof (for_line_in_silent (log_lines out) None
                  (set_changed_files [] a)) as Hsilent.
    destruct (for_line_in (log_lines out) None (set_changed_files [] a))
      as [[[u|e] s'] t]; simpl in Hsilent; subst t; [reflexivity|].
    destruct (exn_class_eqb (cls e) CalledProcessError); reflexivity.
Qed.

Lemma exit_status_cases (r : result bool) :
  exit_status r = 0%Z \/ exit_status r = 1%Z.
Proof. destruct r as [[|]|e]; simpl; auto. Qed.

(** A run ends with status 0 only if the branch was resolved to a name,
    entries were collected, and nothing failed while they were mailed. *)
Lemma exit_zero_needs (w : world) :
  fst (main w) = 0%Z ->
  (exists out, git_rev_parse w = Exited 0 out /\ strip out <> [])
  /\ changed_files (agent_after (main_run w)) <> []
  /\ send_failure w (agent_after (main_run w)) = None.
Proof.
  unfold main, main_run. cbn [fst]. rewrite run_stages.
  set (a := init _ _ _).
  pose proof (resolver_outcomes w a) as Hres.
  destruct (get_current_branch w a) as [[[b|e] s1] tb]; [|discriminate].
  destruct (truthy_option b) eqn:Hb; [|discriminate].
  destruct (get_files_changed_today w s1) as [[[l|e] s2] tc];
    [|discriminate].
  destruct (send_email_returns w s2) as [success [t Hsend]].
  pose proof (send_email_true w s2) as Htrue.
  rewrite Hsend in *. unfold value, agent_after in *. cbn [fst snd] in *.
  destruct success; [|discriminate]. intros _.
  destruct (Htrue eq_refl) as [Hfiles Hok]. repeat split; try assumption.
  destruct (git_rev_parse w) as [[|rc] out|sig|msg].
  - exists out. split; [reflexivity|]. injection Hres as -> _ _.
    simpl in Hb. now destruct (strip out).
  - destruct Hres as [detail Hres]. injection Hres as -> _ _.
    discriminate.
  - destruct Hres as [detail Hres]. injection Hres as -> _ _.
    discriminate.
  - discriminate.
Qed.

Lemma main_status (w : world) : fst (main w) = 0%Z \/ fst (main w) = 1%Z.
Proof. unfold main. cbn [fst]. apply exit_status_cases. Qed.

(** A trace put together from quiet pieces is quiet. *)
Ltac quiet :=
  repeat first [assumption | reflexivity | apply no_smtp_app].

(** Without a collected entry, a run makes no call into [smtplib]. *)
Lemma run_without_entries (w : world) :
  changed_files (agent_after (main_run w)) = [] ->
  no_smtp (snd (main w)).
Proof.
  unfold main, main_run. cbn [snd]. rewrite run_stages.
  set (a := init _ _ _).
  destruct (resolver_trace w a) as [Hres _].
  destruct (get_current_branch w a) as [[[b|e] s1] tb];
    unfold trace_of in *; cbn [snd] in *; [|intros _; quiet].
  destruct (truthy_option b); [|intros _; quiet].
  pose proof (collector_trace w s1) as Hcol.
  destruct (get_files_changed_today w s1) as [[[l|e] s2] tc];
    unfold trace_of in *; cbn [snd] in *; [|intros _; quiet].
  destruct (send_email_returns w s2) as [success [t Hsend]].
  pose proof (send_email_nothing w s2) as Hnothing.
  rewrite Hsend in *. unfold agent_after. cbn [fst snd].
  intros Hempty. specialize (Hnothing Hempty).
  injection Hnothing as -> ->. rewrite Hempty. cbn [truthy]. quiet.
Qed.

(** Without a resolved branch, a run makes no log query. *)
Lemma run_without_branch (w : world) :
  query_errors (git_rev_parse w) ->
  no_log_query (snd (main w)).
Proof.
  unfold main, main_run. cbn [snd]. rewrite run_stages.
  set (a := init _ _ _).
  pose proof (resolver_outcomes w a) as Hres.
  intros Herr.
  destruct (git_rev_parse w) as [[|rc] out|sig|msg]; [contradiction| | |].
  - destruct Hres as [detail ->]. reflexivity.
  - destruct Hres as [detail ->]. reflexivity.
  - rewrite Hres. reflexivity.
Qed.

(** A log without a header leaves no entry. *)
Lemma collector_without_headers (w : world) (a : GitFileEmailAgent) out :
  git_log w = Exited 0 out ->
  Forall plain (log_lines out) ->
  value (get_files_changed_today w a) = Return [].
Proof.
  intros Hlog Hplain.
  destruct (strip out) as [|c s] eqn:Hout.
  - now rewrite (collector_no_output w a Hlog Hout).
  - assert (Hne : strip out <> []) by (rewrite Hout; discriminate).
    assert (Hwf : Forall well_formed (log_lines out)).
    { eapply Forall_impl; [|exact Hplain].
      unfold plain, well_formed. intros l Hl Hh. congruence. }
    rewrite (collector_returns w a Hlog Hne Hwf). unfold value. cbn [fst].
    f_equal. rewrite <- (app_nil_r (log_lines out)).
    now apply entries_of_before_header.
Qed.

(** C3: with an empty entry sequence [send_email] opens no SMTP session:
    it prints one line and returns [False] without raising.  A run whose
    collected sequence is empty makes no call into [smtplib] and exits
    with status 1.  A log without a commit header is one way for the
    sequence to be empty. *)
Theorem C3_empty_sequence_skips_sending (w : world) (a : GitFileEmailAgent) :
  (changed_files a = [] ->
   send_email w a =
   (Return false, a, [Print (lit "No files changed today. Email not sent.")])
   /\ no_smtp (trace_of (send_email w a)))
  /\ (changed_files (agent_after (main_run w)) = [] ->
      fst (main w) = 1%Z /\ no_smtp (snd (main w)))
  /\ (forall out,
        git_log w = Exited 0 out ->
        Forall plain (log_lines out) ->
        value (get_files_changed_today w a) = Return []).
Proof.
  split; [|split].
  - intros H. rewrite (send_email_nothing w a H). split; reflexivity.
  - intros H. split; [|now apply run_without_entries].
    destruct (main_status w) as [H0|H1]; [|assumption].
    now apply exit_zero_needs in H0 as [_ [Hne _]].
  - intros out. apply collector_without_headers.
Qed.

Lemma C3_empty_sequence_skips_sending_witness :
  let w := with_git_log (Exited 0 (lit "README.md")) example_world in
  changed_files example_agent = []
  /\ changed_files (agent_after (main_run w)) = []
  /\ Forall plain (log_lines (lit "README.md"))
  /\ value (send_email w example_agent) = Return false
  /\ fst (main w) = 1%Z
  /\ value (get_files_changed_today w example_agent) = Return [].
Proof.
  intros w.
  assert (H1 : changed_files example_agent = []) by reflexivity.
  assert (H2 : changed_files (agent_after (main_run w)) = [])
    by (vm_compute; reflexivity).
  assert (H3 : Forall plain (log_lines (lit "README.md")))
    by (repeat constructor).
  pose proof (C3_empty_sequence_skips_sending w example_agent)
    as [Hsend [Hrun Hlog]].
  split; [exact H1|]. split; [exact H2|]. split; [exact H3|].
  split; [exact (f_equal value (proj1 (Hsend H1)))|].
  split; [exact (proj1 (Hrun H2))|].
  exact (Hlog (lit "README.md") eq_refl H3).
Defined.

(** ** Failing queries *)

(** The Branch Resolver on a query that does not end well, message for
    message. *)
Lemma resolver_failures (w : world) (a : GitFileEmailAgent) :
  match git_rev_parse w with
  | Exited 0 _ => True
  | Exited rc _ =>
      get_current_branch w a =
      (Return None, a,
       [Run rev_parse_argv;
        Print (lit "Error getting branch name: Command '['git', 'rev-parse', '--abbrev-ref', 'HEAD']' returned non-zero exit status "
               ++ dec rc ++ lit ".")])
  | Killed sig =>
      get_current_branch w a =
      (Return None, a,
       [Run rev_parse_argv;
        Print (lit "Error getting branch name: Command '['git', 'rev-parse', '--abbrev-ref', 'HEAD']' died with "
               ++ sig ++ lit ".")])
  | NotStarted msg =>
      get_current_branch w a =
      (Raise {| cls := FileNotFoundError; message := msg |}, a,
       [Run rev_parse_argv])
  end.
Proof.
  unfold get_current_branch, try_except, subprocess_run.
  destruct (git_rev_parse w) as [[|rc] out|sig|msg];
    [exact I|reflexivity|reflexivity|reflexivity].
Qed.

(** C5 (as amended): if the branch query exits with a non-zero status or
    dies by a signal (not inside a repository, say), [get_current_branch]
    prints [Error getting branch name:] with the text of the error and
    returns [None]; [run] then prints that it failed to get the branch name
    and returns [False].  If the query cannot be started (the VCS binary is
    unavailable), no clause handles the exception: [get_current_branch]
    raises [FileNotFoundError] instead of returning, and the exception goes
    on through [run] and [main] uncaught.  In every case the run makes no
    log query and the process exits with status 1. *)
Theorem C5_branch_query_error_stops_run (w : world) (a : GitFileEmailAgent) :
  query_errors (git_rev_parse w) ->
  match git_rev_parse w with
  | Exited rc _ =>
      get_current_branch w a =
      (Return None, a,
       [Run rev_parse_argv;
        Print (lit "Error getting branch name: Command '['git', 'rev-parse', '--abbrev-ref', 'HEAD']' returned non-zero exit status "
               ++ dec rc ++ lit ".")])
      /\ value (run w a) = Return false
      /\ value (main_run w) = Return false
      /\ last (printed (trace_of (run w a))) []
         = cross_mark :: lit " Failed to get branch name"
  | Killed sig =>
      get_current_branch w a =
      (Return None, a,
       [Run rev_parse_argv;
        Print (lit "Error getting branch name: Command '['git', 'rev-parse', '--abbrev-ref', 'HEAD']' died with "
               ++ sig ++ lit ".")])
      /\ value (run w a) = Return false
      /\ value (main_run w) = Return false
      /\ last (printed (trace_of (run w a))) []
         = cross_mark :: lit " Failed to get branch name"
  | NotStarted msg =>
      get_current_branch w a =
      (Raise {| cls := FileNotFoundError; message := msg |}, a,
       [Run rev_parse_argv])
      /\ value (run w a)
         = Raise {| cls := FileNotFoundError; message := msg |}
      /\ value (main_run w)
         = Raise {| cls := FileNotFoundError; message := msg |}
      /\ last (printed (trace_of (run w a))) []
         = newline :: lit "1. Fetching current branch..."
  end
  /\ no_log_query (trace_of (run w a))
  /\ no_log_query (snd (main w))
  /\ fst (main w) = 1%Z.
Proof.
  intros Herr.
  assert (Hrun : forall s,
    match git_rev_parse w with
    | Exited 0 _ => True
    | Exited _ _ | Killed _ =>
        value (run w s) = Return false
        /\ last (printed (trace_of (run w s))) []
           = cross_mark :: lit " Failed to get branch name"
        /\ no_log_query (trace_of (run w s))
    | NotStarted msg =>
        value (run w s) = Raise {| cls := FileNotFoundError; message := msg |}
        /\ last (printed (trace_of (run w s))) []
           = newline :: lit "1. Fetching current branch..."
        /\ no_log_query (trace_of (run w s))
    end).
  { intros s. rewrite run_stages. pose proof (resolver_failures w s) as H.
    destruct (git_rev_parse w) as [[|rc] out|sig|msg];
      [exact I| | | ]; rewrite H; repeat split; reflexivity. }
  pose proof (Hrun a) as Ha.
  pose proof (Hrun (init RECIPIENT_EMAIL (strip (input_username w))
                      (strip (input_password w)))) as Hmain.
  fold (main_run w) in Hmain.
  pose proof (resolver_failures w a) as Hres.
  assert (Hstatus : fst (main w) = 1%Z).
  { destruct (main_status w) as [H0|H1]; [|assumption].
    apply exit_zero_needs in H0 as [[out [Hout _]] _].
    rewrite Hout in Herr. contradiction. }
  unfold main at 1. cbn [snd].
  destruct (git_rev_parse w) as [[|rc] out|sig|msg]; [contradiction| | |];
    destruct Ha as [Hv [Hp Hq]]; destruct Hmain as [Hv' [_ Hq']];
    repeat split; assumption.
Qed.

Lemma C5_branch_query_error_stops_run_witness :
  let w := with_git_rev_parse
             (Exited 128 (lit "fatal: not a git repository")) example_world in
  query_errors (git_rev_parse w)
  /\ get_current_branch w example_agent =
     (Return None, example_agent,
      [Run rev_parse_argv;
       Print (lit "Error getting branch name: Command '['git', 'rev-parse', '--abbrev-ref', 'HEAD']' returned non-zero exit status 128.")])
  /\ value (main_run w) = Return false
  /\ no_log_query (snd (main w))
  /\ fst (main w) = 1%Z.
Proof.
  intros w.
  assert (H : query_errors (git_rev_parse w)) by exact I.
  pose proof (C5_branch_query_error_stops_run w example_agent H)
    as [[H1 [_ [H2 _]]] [_ [H3 H4]]].
  split; [exact H|]. split; [exact H1|]. split; [exact H2|].
  split; [exact H3|exact H4].
Defined.

(** C5 as the claim words it fails: when the VCS binary is unavailable the
    branch query errors, yet [get_current_branch] returns nothing: it
    raises. *)
Lemma C5_missing_binary_raises :
  let w := with_git_rev_parse
             (NotStarted (lit "[Errno 2] No such file or directory: 'git'"))
             example_world in
  query_errors (git_rev_parse w)
  /\ value (get_current_branch w example_agent) <> Return None
  /\ value (get_current_branch w example_agent)
     = Raise {| cls := FileNotFoundError;
                message := lit "[Errno 2] No such file or directory: 'git'" |}.
Proof.
  intros w. split; [exact I|]. split; [discriminate|reflexivity].
Qed.

(** The text of the error of a log query that ends with status [rc]. *)
Lemma log_query_error_text (d : Date) (rc : N) :
  lit "Command '" ++ repr_argv (log_argv d)
  ++ lit "' returned non-zero exit status " ++ dec rc ++ lit "."
  = lit "Command '['git', 'log', '--all', '--since=" ++ isoformat d
    ++ lit "', '--until=" ++ isoformat d
    ++ lit "', '--name-only', '--pretty=format:%h|%an|%ai|%s']' returned non-zero exit status "
    ++ dec rc ++ lit ".".
Proof.
  unfold repr_argv, log_argv. generalize (isoformat d) (dec rc).
  intros iso status. cbn [map join]. repeat rewrite <- app_assoc.
  reflexivity.
Qed.

Lemma log_query_signal_text (d : Date) (sig : str) :
  lit "Command '" ++ repr_argv (log_argv d)
  ++ lit "' died with " ++ sig ++ lit "."
  = lit "Command '['git', 'log', '--all', '--since=" ++ isoformat d
    ++ lit "', '--until=" ++ isoformat d
    ++ lit "', '--name-only', '--pretty=format:%h|%an|%ai|%s']' died with "
    ++ sig ++ lit ".".
Proof.
  unfold repr_argv, log_argv. generalize (isoformat d).
  intros iso. cbn [map join]. repeat rewrite <- app_assoc.
  reflexivity.
Qed.

(** C6 (as amended): if the log query returns no output, the collector
    returns an empty sequence, raises nothing and prints that no commits
    were found.  If the query ran and ended with a non-zero status or by a
    signal, the collector also returns an empty sequence and prints
    [Error getting changed files:] with the text of the error.  If the
    query cannot be started (the VCS binary is unavailable), no clause
    handles the exception: the collector prints nothing and raises
    [FileNotFoundError] instead of yielding a sequence.  In each of these
    cases [self.changed_files] is left as it was. *)
Theorem C6_no_output_or_failed_query_gives_empty
    (w : world) (a : GitFileEmailAgent) :
  (forall out,
     git_log w = Exited 0 out -> strip out = [] ->
     get_files_changed_today w a =
     (Return [], a,
      [Run (log_argv (today w)); Print (lit "No commits found for today")]))
  /\ (forall rc out,
        git_log w = Exited rc out -> rc <> 0%N ->
        get_files_changed_today w a =
        (Return [], a,
         [Run (log_argv (today w));
          Print (lit "Error getting changed files: Command '['git', 'log', '--all', '--since="
                 ++ isoformat (today w) ++ lit "', '--until="
                 ++ isoformat (today w)
                 ++ lit "', '--name-only', '--pretty=format:%h|%an|%ai|%s']' returned non-zero exit status "
                 ++ dec rc ++ lit ".")]))
  /\ (forall sig,
        git_log w = Killed sig ->
        get_files_changed_today w a =
        (Return [], a,
         [Run (log_argv (today w));
          Print (lit "Error getting changed files: Command '['git', 'log', '--all', '--since="
                 ++ isoformat (today w) ++ lit "', '--until="
                 ++ isoformat (today w)
                 ++ lit "', '--name-only', '--pretty=format:%h|%an|%ai|%s']' died with "
                 ++ sig ++ lit ".")]))
  /\ (forall msg,
        git_log w = NotStarted msg ->
        get_files_changed_today w a =
        (Raise {| cls := FileNotFoundError; message := msg |}, a,
         [Run (log_argv (today w))])).
Proof.
  split; [|split; [|split]].
  - intros out Hlog Hout. now apply collector_no_output with (out := out).
  - intros rc out Hlog Hrc.
    unfold get_files_changed_today, try_except, subprocess_run.
    rewrite Hlog. destruct rc as [|p]; [congruence|].
    unfold bind, emit, raise, print, ret. cbn [cls message exn_class_eqb].
    cbn [app]. rewrite log_query_error_text. reflexivity.
  - intros sig Hlog.
    unfold get_files_changed_today, try_except, subprocess_run.
    rewrite Hlog.
    unfold bind, emit, raise, print, ret. cbn [cls message exn_class_eqb].
    cbn [app]. rewrite log_query_signal_text. reflexivity.
  - intros msg Hlog.
    unfold get_files_changed_today, try_except, subprocess_run.
    rewrite Hlog. reflexivity.
Qed.

Lemma C6_no_output_or_failed_query_gives_empty_witness :
  let quiet_world := with_git_log (Exited 0 [newline]) example_world in
  let broken_world :=
    with_git_log (Exited 128 (lit "fatal: bad revision")) example_world in
  git_log quiet_world = Exited 0 [newline]
  /\ strip [newline] = []
  /\ git_log broken_world = Exited 128 (lit "fatal: bad revision")
  /\ 128%N <> 0%N
  /\ value (get_files_changed_today quiet_world example_agent) = Return []
  /\ get_files_changed_today broken_world example_agent =
     (Return [], example_agent,
      [Run (log_argv (today broken_world));
       Print (lit "Error getting changed files: Command '['git', 'log', '--all', '--since=2024-01-01', '--until=2024-01-01', '--name-only', '--pretty=format:%h|%an|%ai|%s']' returned non-zero exit status 128.")]).
Proof.
  intros quiet_world broken_world.
  assert (H1 : git_log quiet_world = Exited 0 [newline]) by reflexivity.
  assert (H2 : strip [newline] = []) by reflexivity.
  assert (H3 : git_log broken_world = Exited 128 (lit "fatal: bad revision"))
    by reflexivity.
  assert (H4 : 128%N <> 0%N) by discriminate.
  split; [exact H1|]. split; [exact H2|]. split; [exact H3|].
  split; [exact H4|]. split.
  - exact (f_equal value
             (proj1 (C6_no_output_or_failed_query_gives_empty
                       quiet_world example_agent) _ H1 H2)).
  - exact (proj1 (proj2 (C6_no_output_or_failed_query_gives_empty
                           broken_world example_agent)) _ _ H3 H4).
Defined.

(** C6 as the claim words it fails: when the VCS binary is unavailable the
    log query's execution errors, yet the collector yields no sequence: it
    raises. *)
Lemma C6_missing_binary_raises :
  let w := with_git_log
             (NotStarted (lit "[Errno 2] No such file or directory: 'git'"))
             example_world in
  query_errors (git_log w)
  /\ value (get_files_changed_today w example_agent) <> Return []
  /\ value (get_files_changed_today w example_agent)
     = Raise {| cls := FileNotFoundError;
                message := lit "[Errno 2] No such file or directory: 'git'" |}.
Proof.
  intros w. split; [exact I|]. split; [discriminate|reflexivity].
Qed.

(** ** Failing transmissions *)

(** C7: when something fails while the report is mailed (the first failure
    being [e]), [send_email] does not raise: it returns [False].  For
    rejected credentials ([SMTPAuthenticationError]) it prints three lines,
    beginning [Error: Gmail authentication failed.]; for any other failure
    it prints the one line [Error sending email:] with the text of the
    exception.  The two reports never coincide, and either way the process
    exits with status 1. *)
Theorem C7_authentication_and_transmission_failures
    (w : world) (a : GitFileEmailAgent) (e : exn) :
  changed_files a <> [] ->
  send_failure w a = Some e ->
  value (send_email w a) = Return false
  /\ agent_after (send_email w a) = a
  /\ (cls e = SMTPAuthenticationError ->
      printed (trace_of (send_email w a))
      = [cross_mark :: lit " Error: Gmail authentication failed.";
         lit "  Make sure you're using an App Password, not your regular Gmail password.";
         lit "  Generate one at: https://myaccount.google.com/apppasswords"])
  /\ (cls e <> SMTPAuthenticationError ->
      printed (trace_of (send_email w a))
      = [cross_mark :: lit " Error sending email: " ++ message e])
  /\ (forall e',
        [cross_mark :: lit " Error: Gmail authentication failed.";
         lit "  Make sure you're using an App Password, not your regular Gmail password.";
         lit "  Generate one at: https://myaccount.google.com/apppasswords"]
        <> [cross_mark :: lit " Error sending email: " ++ message e'])
  /\ (send_failure w (agent_after (main_run w)) <> None ->
      fst (main w) = 1%Z).
Proof.
  intros Hne Hfail.
  rewrite (send_email_session w a Hne).
  unfold value, agent_after, trace_of. cbn [fst snd].
  unfold closing_lines. rewrite Hfail.
  rewrite printed_app, (printed_smtp _ (calls_are_smtp w a _)), printed_prints.
  cbn [app]. unfold diagnostic.
  split; [reflexivity|]. split; [reflexivity|]. split; [|split; [|split]].
  - intros Hc. now rewrite Hc.
  - intros Hc. destruct (cls e); try reflexivity. congruence.
  - intros e'. discriminate.
  - intros Hrun. destruct (main_status w) as [H0|H1]; [|assumption].
    apply exit_zero_needs in H0 as [_ [_ Hnone]]. exfalso. exact (Hrun Hnone).
Qed.

Lemma C7_authentication_and_transmission_failures_witness :
  let rejecting := with_smtp_login (Some bad_credentials) example_world in
  let unreachable := with_smtp_connect (Some connection_lost) example_world in
  changed_files loaded_agent <> []
  /\ send_failure rejecting loaded_agent = Some bad_credentials
  /\ send_failure unreachable loaded_agent = Some connection_lost
  /\ value (send_email rejecting loaded_agent) = Return false
  /\ printed (trace_of (send_email rejecting loaded_agent))
     = [cross_mark :: lit " Error: Gmail authentication failed.";
        lit "  Make sure you're using an App Password, not your regular Gmail password.";
        lit "  Generate one at: https://myaccount.google.com/apppasswords"]
  /\ value (send_email unreachable loaded_agent) = Return false
  /\ printed (trace_of (send_email unreachable loaded_agent))
     = [cross_mark :: lit " Error sending email: Connection unexpectedly closed"]
  /\ fst (main rejecting) = 1%Z
  /\ fst (main unreachable) = 1%Z.
Proof.
  intros rejecting unreachable.
  assert (H1 : changed_files loaded_agent <> []) by discriminate.
  assert (H2 : send_failure rejecting loaded_agent = Some bad_credentials)
    by reflexivity.
  assert (H3 : send_failure unreachable loaded_agent = Some connection_lost)
    by reflexivity.
  pose proof (C7_authentication_and_transmission_failures
                rejecting loaded_agent H1 H2) as [Hv [_ [Hp [_ [_ Hm]]]]].
  pose proof (C7_authentication_and_transmission_failures
                unreachable loaded_agent H1 H3)
    as [Hv' [_ [_ [Hp' [_ Hm']]]]].
  split; [exact H1|]. split; [exact H2|]. split; [exact H3|].
  split; [exact Hv|]. split; [exact (Hp eq_refl)|].
  split; [exact Hv'|]. split; [apply Hp'; discriminate|].
  split; [apply Hm|apply Hm']; vm_compute; discriminate.
Defined.

(** ** The rendered document *)

(** Text free of the first character of a pattern holds no occurrence of
    it, and none can begin in it. *)
Lemma occurrences_skip (c : char) (p f s : str) :
  contains c f = false ->
  occurrences (c :: p) (f ++ s) = occurrences (c :: p) s.
Proof.
  induction f as [|d f IH]; intros H; [reflexivity|].
  simpl in H. apply orb_false_iff in H as [Hd Hf].
  change ((d :: f) ++ s) with (d :: (f ++ s)).
  cbn [occurrences starts_with]. rewrite Hd. cbn [andb Nat.add].
  now apply IH.
Qed.

Lemma decimal_markup_free (d : Decimal.uint) :
  contains less_than (lit (NilEmpty.string_of_uint d)) = false.
Proof. induction d; simpl; try reflexivity; assumption. Qed.

Lemma dec_markup_free (n : N) : contains less_than (dec n) = false.
Proof.
  unfold dec, NilZero.string_of_uint.
  destruct (N.to_uint n); try apply decimal_markup_free. reflexivity.
Qed.

Lemma digit_markup_free (n : N) : N.eqb less_than (48 + n mod 10) = false.
Proof.
  apply N.eqb_neq. unfold less_than.
  pose proof (N.mod_upper_bound n 10). lia.
Qed.

Lemma two_digits_markup_free (n : N) :
  contains less_than (two_digits n) = false.
Proof.
  unfold two_digits, contains. cbn [existsb].
  now rewrite !digit_markup_free.
Qed.

Lemma strftime_markup_free (t : DateTime) :
  contains less_than (strftime t) = false.
Proof.
  unfold strftime.
  rewrite !contains_app, dec_markup_free, !two_digits_markup_free.
  reflexivity.
Qed.

(** Counting a tag in a document of markup-free entries, from its count in
    each literal of [create_html_table]. *)
Section Counting.

Variable tag : str.
Variables in_open in_row_open in_cell_sep in_row_close : nat.

Hypothesis in_html_open_ok : forall s,
  occurrences (less_than :: tag) (html_open ++ s)
  = in_open + occurrences (less_than :: tag) s.
Hypothesis in_row_open_ok : forall s,
  occurrences (less_than :: tag) (row_open ++ s)
  = in_row_open + occurrences (less_than :: tag) s.
Hypothesis in_cell_sep_ok : forall s,
  occurrences (less_than :: tag) (cell_sep ++ s)
  = in_cell_sep + occurrences (less_than :: tag) s.
Hypothesis in_row_close_ok : forall s,
  occurrences (less_than :: tag) (row_close ++ s)
  = in_row_close + occurrences (less_than :: tag) s.
Hypothesis in_table_close_ok : forall s,
  occurrences (less_than :: tag) (table_close ++ s)
  = occurrences (less_than :: tag) s.
Hypothesis in_html_close_ok :
  occurrences (less_than :: tag) html_close = 0.

Lemma count_in_html_row (f : file_info) (s : str) :
  markup_free f ->
  occurrences (less_than :: tag) (html_row f ++ s)
  = (in_row_open + 2 * in_cell_sep + in_row_close)
    + occurrences (less_than :: tag) s.
Proof.
  intros [Hd [Hf Hb]]. unfold html_row. rewrite <- !app_assoc.
  rewrite in_row_open_ok. rewrite occurrences_skip by exact Hd.
  rewrite in_cell_sep_ok. rewrite occurrences_skip by exact Hf.
  rewrite in_cell_sep_ok. rewrite occurrences_skip by exact Hb.
  rewrite in_row_close_ok. lia.
Qed.

Lemma count_in_rows (l : list file_info) (s : str) :
  Forall markup_free l ->
  occurrences (less_than :: tag) (List.concat (map html_row l) ++ s)
  = (in_row_open + 2 * in_cell_sep + in_row_close) * List.length l
    + occurrences (less_than :: tag) s.
Proof.
  induction 1 as [|f l Hf Hl IH].
  - cbn [map List.concat app List.length]. now rewrite Nat.mul_0_r.
  - cbn [map List.concat List.length]. rewrite <- app_assoc.
    rewrite count_in_html_row by exact Hf. rewrite IH.
    rewrite Nat.mul_succ_r. lia.
Qed.

Lemma count_in_report (t : DateTime) (l : list file_info) :
  Forall markup_free l ->
  occurrences (less_than :: tag) (report t l)
  = in_open
    + (in_row_open + 2 * in_cell_sep + in_row_close) * List.length l.
Proof.
  intros Hl. unfold report.
  rewrite in_html_open_ok. rewrite count_in_rows by exact Hl.
  rewrite in_table_close_ok.
  rewrite occurrences_skip by apply strftime_markup_free.
  rewrite in_html_close_ok. lia.
Qed.

End Counting.

(** A document of markup-free entries has one row for the header and one
    for each entry, three header cells, and three cells for each entry. *)
Lemma rows_in_report (t : DateTime) (l : list file_info) :
  Forall markup_free l ->
  occurrences tr_tag (report t l) = 1 + List.length l.
Proof.
  intros Hl. unfold tr_tag. change (lit "<tr>") with (less_than :: lit "tr>").
  rewrite (@count_in_report (lit "tr>") 1 1 0 0);
    first [assumption | intros s; vm_compute; reflexivity
          | vm_compute; reflexivity | lia].
Qed.

Lemma header_cells_in_report (t : DateTime) (l : list file_info) :
  Forall markup_free l ->
  occurrences th_tag (report t l) = 3.
Proof.
  intros Hl. unfold th_tag. change (lit "<th>") with (less_than :: lit "th>").
  rewrite (@count_in_report (lit "th>") 3 0 0 0);
    first [assumption | intros s; vm_compute; reflexivity
          | vm_compute; reflexivity | lia].
Qed.

Lemma cells_in_report (t : DateTime) (l : list file_info) :
  Forall markup_free l ->
  occurrences td_tag (report t l) = 3 * List.length l.
Proof.
  intros Hl. unfold td_tag. change (lit "<td>") with (less_than :: lit "td>").
  rewrite (@count_in_report (lit "td>") 0 1 1 0);
    first [assumption | intros s; vm_compute; reflexivity
          | vm_compute; reflexivity | lia].
Qed.

(** The document of a non-empty sequence, literal for literal. *)
Lemma report_text (t : DateTime) (l : list file_info) :
  report t l
  = lit "
        <html>
        <head>
            <style>
                table {
                    border-collapse: collapse;
                    width: 100%;
                    margin: 20px 0;
                    font-family: Arial, sans-serif;
                }
                th {
                    background-color: #4CAF50;
                    color: white;
                    padding: 12px;
                    text-align: left;
                    border: 1px solid #ddd;
                }
                td {
                    padding: 10px;
                    border: 1px solid #ddd;
                }
                tr:nth-child(even) {
                    background-color: #f2f2f2;
                }
                tr:hover {
                    background-color: #ddd;
                }
            </style>
        </head>
        <body>
            <h2>Git Files Changed Today Report</h2>
            <table>
                <tr>
                    <th>Date</th>
                    <th>Filename</th>
                    <th>Branch</th>
                </tr>
        "
    ++ List.concat
         (map (fun f =>
                 lit "
                <tr>
                    <td>" ++ date f
                 ++ lit "</td>
                    <td>" ++ filename f
                 ++ lit "</td>
                    <td>" ++ branch f
                 ++ lit "</td>
                </tr>
            ")
            l)
    ++ lit "
            </table>
            <p><small>Report generated on "
    ++ dec (year (dt_date t)) ++ lit "-"
    ++ two_digits (month (dt_date t)) ++ lit "-"
    ++ two_digits (day (dt_date t)) ++ lit " "
    ++ two_digits (hour t) ++ lit ":"
    ++ two_digits (minute t) ++ lit ":"
    ++ two_digits (second t)
    ++ lit "</small></p>
        </body>
        </html>
        ".
Proof.
  unfold report, strftime. rewrite <- !app_assoc. reflexivity.
Qed.

(** C4 (as amended): rendering an empty sequence gives the "no files
    changed" notice and nothing else.  Rendering a non-empty sequence gives
    the opening with the one header row of three header cells, then one
    block of a row with three cells per entry, in the order of the sequence
    (nothing sorted, nothing merged), holding the entry's date, filename
    and branch as they are, unescaped, then the closing with the moment of
    generation.  When no entry's text contains ['<'] the table has exactly
    one data row per entry. *)
Theorem C4_rendering (w : world) (a : GitFileEmailAgent) :
  (changed_files a = [] ->
   create_html_table w a
   = (Return (lit "<p>No files changed today.</p>"), a, []))
  /\ (changed_files a <> [] ->
      exists doc : str,
        create_html_table w a = (Return doc, a, [])
        /\ doc
           = lit "
        <html>
        <head>
            <style>
                table {
                    border-collapse: collapse;
                    width: 100%;
                    margin: 20px 0;
                    font-family: Arial, sans-serif;
                }
                th {
                    background-color: #4CAF50;
                    color: white;
                    padding: 12px;
                    text-align: left;
                    border: 1px solid #ddd;
                }
                td {
                    padding: 10px;
                    border: 1px solid #ddd;
                }
                tr:nth-child(even) {
                    background-color: #f2f2f2;
                }
                tr:hover {
                    background-color: #ddd;
                }
            </style>
        </head>
        <body>
            <h2>Git Files Changed Today Report</h2>
            <table>
                <tr>
                    <th>Date</th>
                    <th>Filename</th>
                    <th>Branch</th>
                </tr>
        "
             ++ List.concat
               (map (fun f =>
                       lit "
                <tr>
                    <td>" ++ date f
                       ++ lit "</td>
                    <td>" ++ filename f
                       ++ lit "</td>
                    <td>" ++ branch f
                       ++ lit "</td>
                </tr>
            ")
                  (changed_files a))
             ++ lit "
            </table>
            <p><small>Report generated on "
             ++ dec (year (dt_date (now w))) ++ lit "-"
             ++ two_digits (month (dt_date (now w))) ++ lit "-"
             ++ two_digits (day (dt_date (now w))) ++ lit " "
             ++ two_digits (hour (now w)) ++ lit ":"
             ++ two_digits (minute (now w)) ++ lit ":"
             ++ two_digits (second (now w))
             ++ lit "</small></p>
        </body>
        </html>
        "
        /\ (Forall markup_free (changed_files a) ->
            occurrences tr_tag doc = 1 + List.length (changed_files a)
            /\ occurrences th_tag doc = 3
            /\ occurrences td_tag doc = 3 * List.length (changed_files a))).
Proof.
  split.
  - intros H. unfold create_html_table, bind, self. rewrite H. reflexivity.
  - intros H. exists (report (now w) (changed_files a)).
    split; [exact (create_html_table_report w a H)|].
    split; [apply report_text|].
    intros Hfree. split; [|split].
    + now apply rows_in_report.
    + now apply header_cells_in_report.
    + now apply cells_in_report.
Qed.

Lemma C4_rendering_witness :
  changed_files example_agent = []
  /\ changed_files loaded_agent <> []
  /\ Forall markup_free (changed_files loaded_agent)
  /\ value (create_html_table example_world example_agent)
     = Return (lit "<p>No files changed today.</p>")
  /\ exists doc : str,
       value (create_html_table example_world loaded_agent) = Return doc
       /\ doc = lit "
        <html>
        <head>
            <style>
                table {
                    border-collapse: collapse;
                    width: 100%;
                    margin: 20px 0;
                    font-family: Arial, sans-serif;
                }
                th {
                    background-color: #4CAF50;
                    color: white;
                    padding: 12px;
                    text-align: left;
                    border: 1px solid #ddd;
                }
                td {
                    padding: 10px;
                    border: 1px solid #ddd;
                }
                tr:nth-child(even) {
                    background-color: #f2f2f2;
                }
                tr:hover {
                    background-color: #ddd;
                }
            </style>
        </head>
        <body>
            <h2>Git Files Changed Today Report</h2>
            <table>
                <tr>
                    <th>Date</th>
                    <th>Filename</th>
                    <th>Branch</th>
                </tr>
        
                <tr>
                    <td>2024-01-01</td>
                    <td>src/a.py</td>
                    <td>main</td>
                </tr>
            
                <tr>
                    <td>2024-01-01</td>
                    <td>src/b.py</td>
                    <td>main</td>
                </tr>
            
            </table>
            <p><small>Report generated on 2024-01-01 15:04:05</small></p>
        </body>
        </html>
        "
       /\ occurrences tr_tag doc = 3
       /\ occurrences td_tag doc = 6.
Proof.
  assert (H1 : changed_files example_agent = []) by reflexivity.
  assert (H2 : changed_files loaded_agent <> []) by discriminate.
  assert (H3 : Forall markup_free (changed_files loaded_agent))
    by (repeat constructor).
  pose proof (C4_rendering example_world example_agent) as [Hempty _].
  pose proof (C4_rendering example_world loaded_agent) as [_ Hfull].
  destruct (Hfull H2) as [doc [Hdoc [Htext Hrows]]].
  destruct (Hrows H3) as [Htr [_ Htd]].
  split; [exact H1|]. split; [exact H2|]. split; [exact H3|].
  split; [exact (f_equal value (Hempty H1))|].
  exists doc. split; [exact (f_equal value Hdoc)|].
  split; [rewrite Htext; vm_compute; reflexivity|].
  split; [exact Htr|exact Htd].
Defined.

(** C4 as the claim words it fails: a file named [a<tr>b] is one entry, and
    its name goes into the document as it is, so the table of that one
    entry has two [<tr>] after the header row, not one. *)
Lemma C4_markup_in_a_filename_adds_a_row :
  value (get_files_changed_today
           (with_git_log (Exited 0 markup_log) example_world)
           (set_branch_name (Some (lit "main")) example_agent))
  = Return (changed_files markup_agent)
  /\ List.length (changed_files markup_agent) = 1
  /\ value (create_html_table example_world markup_agent)
     = Return (lit "
        <html>
        <head>
            <style>
                table {
                    border-collapse: collapse;
                    width: 100%;
                    margin: 20px 0;
                    font-family: Arial, sans-serif;
                }
                th {
                    background-color: #4CAF50;
                    color: white;
                    padding: 12px;
                    text-align: left;
                    border: 1px solid #ddd;
                }
                td {
                    padding: 10px;
                    border: 1px solid #ddd;
                }
                tr:nth-child(even) {
                    background-color: #f2f2f2;
                }
                tr:hover {
                    background-color: #ddd;
                }
            </style>
        </head>
        <body>
            <h2>Git Files Changed Today Report</h2>
            <table>
                <tr>
                    <th>Date</th>
                    <th>Filename</th>
                    <th>Branch</th>
                </tr>
        
                <tr>
                    <td>2024-01-01</td>
                    <td>a<tr>b</td>
                    <td>main</td>
                </tr>
            
            </table>
            <p><small>Report generated on 2024-01-01 15:04:05</small></p>
        </body>
        </html>
        ")
  /\ occurrences tr_tag
       (lit "
        <html>
        <head>
            <style>
                table {
                    border-collapse: collapse;
                    width: 100%;
                    margin: 20px 0;
                    font-family: Arial, sans-serif;
                }
                th {
                    background-color: #4CAF50;
                    color: white;
                    padding: 12px;
                    text-align: left;
                    border: 1px solid #ddd;
                }
                td {
                    padding: 10px;
                    border: 1px solid #ddd;
                }
                tr:nth-child(even) {
                    background-color: #f2f2f2;
                }
                tr:hover {
                    background-color: #ddd;
                }
            </style>
        </head>
        <body>
            <h2>Git Files Changed Today Report</h2>
            <table>
                <tr>
                    <th>Date</th>
                    <th>Filename</th>
                    <th>Branch</th>
                </tr>
        
                <tr>
                    <td>2024-01-01</td>
                    <td>a<tr>b</td>
                    <td>main</td>
                </tr>
            
            </table>
            <p><small>Report generated on 2024-01-01 15:04:05</small></p>
        </body>
        </html>
        ")
     = 3
  /\ 3 <> 1 + List.length (changed_files markup_agent).
Proof.
  split; [vm_compute; reflexivity|]. split; [reflexivity|].
  split; [vm_compute; reflexivity|]. split; [vm_compute; reflexivity|].
  discriminate.
Qed.

(** ** The log query *)

(** The collector runs one query, and otherwise only prints. *)
Lemma collector_single_query (w : world) (a : GitFileEmailAgent) :
  exists lines,
    trace_of (get_files_changed_today w a)
    = Run (log_argv (today w)) :: map Print lines.
Proof.
  pose proof (collector_query_fails w a) as H.
  destruct (git_log w) as [[|rc] out|sig|msg] eqn:Hlog.
  2:{ destruct H as [detail H]. rewrite H. now eexists [_]. }
  2:{ destruct H as [detail H]. rewrite H. now eexists [_]. }
  2:{ rewrite H. now exists []. }
  destruct (strip out) as [|c s] eqn:Hout.
  - rewrite (collector_no_output w a Hlog Hout). now eexists [_].
  - assert (Hne : strip out <> []) by (rewrite Hout; discriminate).
    rewrite (collector_with_output w a Hlog Hne).
    pose proof (for_line_in_silent (log_lines out) None
                  (set_changed_files [] a)) as Hsilent.
    destruct (for_line_in (log_lines out) None (set_changed_files [] a))
      as [[[u|e] s'] t]; simpl in Hsilent; subst t; [now exists []|].
    destruct (exn_class_eqb (cls e) CalledProcessError);
      [now eexists [_]|now exists []].
Qed.

(** C8 (what the code does): the one log query covers all refs, and its two
    bounds are the same text, today's date without a time of day.  So
    however [git] reads a date, the query selects the commits of a single
    instant, not those between today 00:00 and now.  On 2024-01-01 at
    15:00, with a bare date read as that day at the current time of day, a
    commit made at 10:00 is outside the window (times in seconds since
    midnight). *)
Theorem C8_log_query_bounds_coincide (d : Date) (approxidate : str -> Z) :
  In (lit "--all") (log_argv d)
  /\ option_value (lit "--since=") (log_argv d) = Some (isoformat d)
  /\ option_value (lit "--until=") (log_argv d) = Some (isoformat d)
  /\ (forall commit_time,
        in_window approxidate (log_argv d) commit_time
        <-> commit_time = approxidate (isoformat d))
  /\ log_argv {| year := 2024; month := 1; day := 1 |}
     = [lit "git"; lit "log"; lit "--all";
        lit "--since=2024-01-01"; lit "--until=2024-01-01";
        lit "--name-only"; lit "--pretty=format:%h|%an|%ai|%s"]
  /\ ~ in_window (fun _ => 54000%Z)
         (log_argv {| year := 2024; month := 1; day := 1 |}) 36000%Z.
Proof.
  assert (Hsince : option_value (lit "--since=") (log_argv d)
                   = Some (isoformat d))
    by (unfold log_argv; generalize (isoformat d); reflexivity).
  assert (Huntil : option_value (lit "--until=") (log_argv d)
                   = Some (isoformat d))
    by (unfold log_argv; generalize (isoformat d); reflexivity).
  split; [simpl; auto|]. split; [assumption|]. split; [assumption|].
  split; [|split; [reflexivity|unfold in_window; simpl; lia]].
  intros t. unfold in_window. rewrite Hsince, Huntil. lia.
Qed.

(** * Further properties of the code *)

(** ** What [strip] keeps and what it removes *)

Lemma lstrip_suffix (s : str) :
  exists removed, s = removed ++ lstrip s /\ forallb isspace removed = true.
Proof.
  induction s as [|c s [removed [Hs Hr]]]; [now exists []|].
  simpl. destruct (isspace c) eqn:Hc.
  - exists (c :: removed). simpl. rewrite Hc, Hr. now rewrite <- Hs.
  - now exists [].
Qed.

Lemma lstrip_head (s : str) (c : char) :
  hd_error (lstrip s) = Some c -> isspace c = false.
Proof.
  induction s as [|d s IH]; simpl; [discriminate|].
  destruct (isspace d) eqn:Hd; [assumption|].
  simpl. intros H. now injection H as <-.
Qed.

Lemma rstrip_prefix (s : str) :
  exists removed, s = rstrip s ++ removed /\ forallb isspace removed = true.
Proof.
  unfold rstrip. destruct (lstrip_suffix (rev s)) as [removed [Hs Hr]].
  exists (rev removed). split.
  - rewrite <- rev_app_distr, <- Hs. now rewrite rev_involutive.
  - rewrite forallb_forall in *. intros x Hx. apply Hr.
    now apply in_rev.
Qed.

Lemma rstrip_last (s : str) (c : char) :
  hd_error (rev (rstrip s)) = Some c -> isspace c = false.
Proof. unfold rstrip. rewrite rev_involutive. apply lstrip_head. Qed.

(** [strip] leaves text that neither starts nor ends with whitespace. *)
Lemma strip_trimmed (s : str) : trimmed (strip s).
Proof.
  unfold trimmed, strip. split; [|apply rstrip_last].
  intros c Hc.
  destruct (rstrip_prefix (lstrip s)) as [removed [Hs _]].
  apply (lstrip_head s). rewrite Hs.
  destruct (rstrip (lstrip s)); [discriminate|exact Hc].
Qed.

(** [strip] brings no character in. *)
Lemma strip_contains (c : char) (s : str) :
  contains c (strip s) = true -> contains c s = true.
Proof.
  unfold strip. intros H.
  destruct (lstrip_suffix s) as [r1 [Hs1 _]].
  destruct (rstrip_prefix (lstrip s)) as [r2 [Hs2 _]].
  rewrite Hs1, Hs2, !contains_app, H. now rewrite orb_true_r.
Qed.

Lemma contains_rev (c : char) (s : str) :
  contains c (rev s) = contains c s.
Proof.
  unfold contains. induction s as [|d s IH]; [reflexivity|].
  cbn [rev]. rewrite existsb_app. cbn [existsb].
  rewrite orb_false_r, orb_comm. f_equal. exact IH.
Qed.

Lemma lstrip_keeps (c : char) (s : str) :
  isspace c = false -> contains c s = true -> contains c (lstrip s) = true.
Proof.
  intros Hc. induction s as [|d s IH]; [discriminate|].
  intros H. simpl. destruct (isspace d) eqn:Hd; [|exact H].
  simpl in H. apply orb_true_iff in H as [H|H]; [|now apply IH].
  apply N.eqb_eq in H. congruence.
Qed.

(** [strip] removes whitespace only. *)
Lemma strip_keeps (c : char) (s : str) :
  isspace c = false -> contains c s = true -> contains c (strip s) = true.
Proof.
  intros Hc H. unfold strip, rstrip.
  rewrite contains_rev. apply lstrip_keeps; [assumption|].
  rewrite contains_rev. now apply lstrip_keeps.
Qed.

(** A header is never a blank line. *)
Lemma header_nonblank (line : str) :
  is_header line = true -> nonblank line = true.
Proof.
  intros H. unfold nonblank.
  assert (Hk : contains pipe (strip line) = true)
    by (apply strip_keeps; [reflexivity|exact H]).
  destruct (strip line); [discriminate|reflexivity].
Qed.

(** ** What every collected entry looks like *)

(** The fields of [split] are made of characters of the text. *)
Lemma split_field_contains (sep c : char) (s : str) : forall f,
  In f (split sep s) -> contains c f = true -> contains c s = true.
Proof.
  induction s as [|d s IH]; intros f Hin Hc.
  - destruct Hin as [<-|[]]. discriminate.
  - simpl in Hin. destruct (N.eqb d sep).
    + destruct Hin as [<-|Hin]; [discriminate|].
      simpl. rewrite (IH f Hin Hc). apply orb_true_r.
    + destruct (split sep s) as [|g gs] eqn:Hs.
      * now apply split_not_nil in Hs.
      * destruct Hin as [<-|Hin].
        -- simpl in Hc. simpl. apply orb_true_iff in Hc as [Hc|Hc].
           ++ now rewrite Hc.
           ++ rewrite (IH g (or_introl eq_refl) Hc). apply orb_true_r.
        -- simpl. rewrite (IH f (or_intror Hin) Hc). apply orb_true_r.
Qed.

Lemma prefix_contains (c : char) (n : nat) (s : str) :
  contains c (prefix n s) = true -> contains c s = true.
Proof.
  unfold prefix. intros H.
  rewrite <- (firstn_skipn n s), contains_app, H. reflexivity.
Qed.

(** The date read off a header: at most 10 characters, none of them the
    separator, all of them characters of the header. *)
Lemma header_date_shape (h : str) :
  List.length (header_date h) <= 10
  /\ contains pipe (header_date h) = false
  /\ (forall c, contains c (header_date h) = true -> contains c h = true).
Proof.
  unfold header_date, prefix. split; [apply firstn_le_length|].
  destruct (nth_in_or_default 2 (split pipe h) []) as [Hin|Hdef].
  - split.
    + destruct (contains pipe (firstn 10 (nth 2 (split pipe h) [])))
        eqn:Hc; [|reflexivity].
      apply (prefix_contains pipe 10) in Hc.
      pose proof (split_fields_clean pipe h) as Hclean.
      rewrite Forall_forall in Hclean. now rewrite (Hclean _ Hin) in Hc.
    + intros c Hc. apply (prefix_contains c 10) in Hc.
      now apply (split_field_contains pipe c h _ Hin).
  - rewrite Hdef. split; [reflexivity|]. intros c Hc.
    simpl in Hc. discriminate.
Qed.

(** Where an entry of the collector comes from. *)
Lemma entry_origin (w : world) (a : GitFileEmailAgent) out es e :
  git_log w = Exited 0 out ->
  value (get_files_changed_today w a) = Return es ->
  In e es ->
  exists header line,
    In header (log_lines out) /\ In line (log_lines out)
    /\ is_header header = true /\ is_file_line line = true
    /\ e = {| filename := strip line;
              date := header_date header;
              branch := stamp a |}.
Proof.
  intros Hlog Hes Hin.
  rewrite (collector_result w a Hlog Hes) in Hin.
  destruct (in_entries_of _ _ _ _ Hin)
    as [skipped [line [rest [h [Hs [Hf [Hl He]]]]]]].
  simpl in Hl.
  destruct (last_header_some _ Hl) as [before [between [Hsk [Hh _]]]].
  exists h, line. rewrite Hs, Hsk.
  repeat split; try assumption.
  - apply in_or_app. left. apply in_or_app. right. now left.
  - apply in_or_app. right. now left.
Qed.

Lemma log_line_without_newline (out line : str) :
  In line (log_lines out) -> contains newline line = false.
Proof.
  intros Hin. pose proof (split_fields_clean newline (strip out)) as H.
  rewrite Forall_forall in H. now apply H.
Qed.

(** X1: every filename the collector stores is a stripped file line: it is
    not empty, neither starts nor ends with whitespace, and holds no ['|']
    and no line break. *)
Theorem X1_collected_filenames_clean
    (w : world) (a : GitFileEmailAgent) (out : str) (es : list file_info) :
  git_log w = Exited 0 out ->
  value (get_files_changed_today w a) = Return es ->
  forall e, In e es ->
    filename e <> []
    /\ trimmed (filename e)
    /\ contains pipe (filename e) = false
    /\ contains newline (filename e) = false.
Proof.
  intros Hlog Hes e Hin.
  destruct (entry_origin w a e Hlog Hes Hin)
    as [h [line [_ [Hline [_ [Hf ->]]]]]].
  cbn [filename]. unfold is_file_line in Hf.
  apply andb_true_iff in Hf as [Hh Ht]. apply negb_true_iff in Hh.
  repeat split.
  - intros Hempty. rewrite Hempty in Ht. discriminate.
  - apply strip_trimmed.
  - apply strip_trimmed.
  - destruct (contains pipe (strip line)) eqn:Hc; [|reflexivity].
    apply strip_contains in Hc. unfold is_header in Hh. congruence.
  - destruct (contains newline (strip line)) eqn:Hc; [|reflexivity].
    apply strip_contains in Hc.
    now rewrite (log_line_without_newline out line Hline) in Hc.
Qed.

Lemma X1_collected_filenames_clean_witness :
  let w := with_git_log (Exited 0 two_commit_log) example_world in
  let a := set_branch_name (Some (lit "main")) example_agent in
  let e := {| filename := lit "src/a.py";
              date := lit "2024-01-01";
              branch := lit "main" |} in
  git_log w = Exited 0 two_commit_log
  /\ value (get_files_changed_today w a) = Return [e; e]
  /\ In e [e; e]
  /\ filename e <> [] /\ trimmed (filename e).
Proof.
  intros w a e.
  assert (H1 : git_log w = Exited 0 two_commit_log) by reflexivity.
  assert (H2 : value (get_files_changed_today w a) = Return [e; e])
    by (vm_compute; reflexivity).
  assert (H3 : In e [e; e]) by (left; reflexivity).
  destruct (X1_collected_filenames_clean w a H1 H2 e H3) as [Hn [Ht _]].
  split; [exact H1|]. split; [exact H2|]. split; [exact H3|].
  split; [exact Hn|exact Ht].
Defined.

(** X2: every entry's date has at most 10 characters, none of them a ['|']
    or a line break, and every entry's branch is the agent's branch name,
    or ['Unknown'] when the agent has none or an empty one; so the branch
    of an entry is never empty. *)
Theorem X2_collected_dates_and_branches
    (w : world) (a : GitFileEmailAgent) (out : str) (es : list file_info) :
  git_log w = Exited 0 out ->
  value (get_files_changed_today w a) = Return es ->
  forall e, In e es ->
    List.length (date e) <= 10
    /\ contains pipe (date e) = false
    /\ contains newline (date e) = false
    /\ branch e <> []
    /\ (forall b, branch_name a = Some b -> b <> [] -> branch e = b)
    /\ (branch_name a = None \/ branch_name a = Some [] ->
        branch e = lit "Unknown").
Proof.
  intros Hlog Hes e Hin.
  destruct (entry_origin w a e Hlog Hes Hin)
    as [h [line [Hh [_ [_ [_ ->]]]]]].
  cbn [date branch].
  destruct (header_date_shape h) as [Hlen [Hpipe Hsub]].
  split; [exact Hlen|]. split; [exact Hpipe|]. split; [|split; [|split]].
  - destruct (contains newline (header_date h)) eqn:Hc; [|reflexivity].
    apply Hsub in Hc.
    now rewrite (log_line_without_newline out h Hh) in Hc.
  - unfold stamp, or_else. destruct (branch_name a) as [[|c b]|];
      discriminate.
  - intros b Hb Hne. now apply stamp_resolved.
  - unfold stamp. intros [-> | ->]; reflexivity.
Qed.

Lemma X2_collected_dates_and_branches_witness :
  let w := with_git_log (Exited 0 example_log) example_world in
  let e := {| filename := lit "src/a.py";
              date := lit "2024-01-01";
              branch := lit "Unknown" |} in
  git_log w = Exited 0 example_log
  /\ value (get_files_changed_today w example_agent)
     = Return (example_entries (lit "Unknown"))
  /\ In e (example_entries (lit "Unknown"))
  /\ List.length (date e) <= 10
  /\ branch e = lit "Unknown".
Proof.
  intros w e.
  assert (H1 : git_log w = Exited 0 example_log) by reflexivity.
  assert (H2 : value (get_files_changed_today w example_agent)
               = Return (example_entries (lit "Unknown")))
    by (vm_compute; reflexivity).
  assert (H3 : In e (example_entries (lit "Unknown")))
    by (left; reflexivity).
  destruct (X2_collected_dates_and_branches w example_agent H1 H2 e H3)
    as [Hl [_ [_ [_ [_ Hu]]]]].
  split; [exact H1|]. split; [exact H2|]. split; [exact H3|].
  split; [exact Hl|exact (Hu (or_introl eq_refl))].
Defined.

(** ** One entry per file line, in the order of the log *)

Lemma filenames_after_header br rest : forall seen h,
  last_header seen = Some h ->
  map filename (entries_of br seen rest)
  = map strip (filter is_file_line rest).
Proof.
  induction rest as [|line rest IH]; intros seen h Hl; [reflexivity|].
  cbn [entries_of filter]. rewrite map_app. unfold entry_of. rewrite Hl.
  destruct (is_header line) eqn:Hh.
  - assert (Hf : is_file_line line = false)
      by (unfold is_file_line; now rewrite Hh).
    rewrite Hf. cbn [map app].
    apply (IH _ line). now apply last_header_snoc_header.
  - rewrite (IH (seen ++ [line]) h)
      by now rewrite (last_header_snoc_other _ _ Hh).
    now destruct (is_file_line line).
Qed.

Lemma filenames_before_header br rest : forall seen,
  last_header seen = None ->
  map filename (entries_of br seen rest)
  = map strip (filter is_file_line (after_first_header rest)).
Proof.
  induction rest as [|line rest IH]; intros seen Hl; [reflexivity|].
  cbn [entries_of after_first_header]. rewrite map_app.
  unfold entry_of at 1. rewrite Hl.
  destruct (is_header line) eqn:Hh.
  - assert (Hf : is_file_line line = false)
      by (unfold is_file_line; now rewrite Hh).
    cbn [filter]. rewrite Hf. cbn [map app].
    eapply filenames_after_header.
    now apply last_header_snoc_header.
  - replace (map filename (if is_file_line line then [] else []))
      with (@nil str) by now destruct (is_file_line line).
    cbn [app]. apply IH. now rewrite (last_header_snoc_other _ _ Hh).
Qed.

(** X3: the filenames the collector returns are the stripped file lines
    that come after the first header, one entry per line and in the order
    of the log: nothing is merged, a path listed under two commits is
    listed twice. *)
Theorem X3_one_entry_per_file_line
    (w : world) (a : GitFileEmailAgent) (out : str) (es : list file_info) :
  git_log w = Exited 0 out ->
  value (get_files_changed_today w a) = Return es ->
  map filename es
  = map strip (filter is_file_line (after_first_header (log_lines out)))
  /\ List.length es
     = List.length (filter is_file_line (after_first_header (log_lines out))).
Proof.
  intros Hlog Hes.
  assert (Hnames :
    map filename es
    = map strip (filter is_file_line (after_first_header (log_lines out)))).
  { rewrite (collector_result w a Hlog Hes).
    now apply filenames_before_header. }
  split; [exact Hnames|].
  apply (f_equal (@List.length str)) in Hnames.
  now rewrite !length_map in Hnames.
Qed.

Lemma X3_one_entry_per_file_line_witness :
  let w := with_git_log (Exited 0 two_commit_log) example_world in
  let e := {| filename := lit "src/a.py";
              date := lit "2024-01-01";
              branch := lit "Unknown" |} in
  git_log w = Exited 0 two_commit_log
  /\ value (get_files_changed_today w example_agent) = Return [e; e]
  /\ map filename [e; e] = [lit "src/a.py"; lit "src/a.py"]
  /\ List.length
       (filter is_file_line (after_first_header (log_lines two_commit_log)))
     = 2.
Proof.
  intros w e.
  assert (H1 : git_log w = Exited 0 two_commit_log) by reflexivity.
  assert (H2 : value (get_files_changed_today w example_agent)
               = Return [e; e]) by (vm_compute; reflexivity).
  destruct (X3_one_entry_per_file_line w example_agent H1 H2) as [Hn Hl].
  split; [exact H1|]. split; [exact H2|]. split; [reflexivity|].
  symmetry. exact Hl.
Defined.

(** ** Blank lines and commit blocks *)

(** X4: blank lines (empty or whitespace only) mean nothing to the parsing
    loop: with or without them it returns or raises the same, and leaves
    the same entries in the agent. *)
Theorem X4_blank_lines_ignored (lines : list str) :
  forall cur a,
    for_line_in (filter nonblank lines) cur a = for_line_in lines cur a.
Proof.
  induction lines as [|line lines IH]; intros cur a; [reflexivity|].
  cbn [filter]. destruct (nonblank line) eqn:Hb.
  - apply for_line_in_cons_ext. exact IH.
  - assert (Hh : is_header line = false).
    { destruct (is_header line) eqn:Hh; [|reflexivity].
      rewrite (header_nonblank _ Hh) in Hb. discriminate. }
    assert (Hf : is_file_line line = false).
    { unfold is_file_line. unfold nonblank in Hb. now rewrite Hh, Hb. }
    rewrite (for_line_skip _ _ _ Hh (or_introl Hf)). apply IH.
Qed.

(** A header makes the loop forget the commit it was in. *)
Lemma header_resets_commit (header : str) rest cur a :
  is_header header = true ->
  for_line_in (header :: rest) cur a = for_line_in (header :: rest) None a.
Proof.
  intros H. unfold is_header in H. simpl for_line_in. now rewrite H.
Qed.

(** X5: commit blocks are read independently.  Reading lines that are
    followed by a header and more lines is reading the first lines, and
    then, from the agent they leave, the header and the rest as if they
    started a log; if the first lines raise, nothing further is read. *)
Theorem X5_commit_blocks_independent
    (lines : list str) (header : str) (rest : list str)
    (cur : option commit_info) (a : GitFileEmailAgent) :
  is_header header = true ->
  for_line_in (lines ++ header :: rest) cur a
  = bind (for_line_in lines cur)
         (fun _ => for_line_in (header :: rest) None) a.
Proof.
  intros Hh. revert cur a.
  induction lines as [|line lines IH]; intros cur a.
  - cbn [app]. rewrite (header_resets_commit _ rest cur a Hh).
    unfold bind. change (for_line_in [] cur a) with (ret (A := unit) tt a).
    unfold ret.
    now destruct (for_line_in (header :: rest) None a) as [[r s] t].
  - cbn [app]. unfold bind.
    destruct (is_header line) eqn:Hl.
    + destruct (le_lt_dec 3 (List.length (split pipe line))) as [Hlen|Hlen].
      * rewrite !(for_line_header_fields line) by assumption.
        now rewrite IH.
      * now rewrite !for_line_short_header by (split; assumption).
    + destruct (is_file_line line) eqn:Hf.
      * destruct cur as [info|].
        -- rewrite !(for_line_file _ _ _ _ Hf). now rewrite IH.
        -- rewrite !(for_line_skip _ _ _ Hl (or_intror eq_refl)).
           now rewrite IH.
      * rewrite !(for_line_skip _ _ _ Hl (or_introl Hf)). now rewrite IH.
Qed.

Lemma X5_commit_blocks_independent_witness :
  let first := [lit "abc123|Jane Doe|2024-01-01T10:00:00+00:00|fix bug";
                lit "src/a.py"] in
  let header := lit "def456|John Roe|2024-01-02T11:30:00+00:00|more" in
  is_header header = true
  /\ changed_files
       (agent_after (for_line_in (first ++ header :: [lit "src/b.py"])
                       None example_agent))
     = changed_files
         (agent_after (bind (for_line_in first None)
                         (fun _ => for_line_in (header :: [lit "src/b.py"])
                                     None) example_agent)).
Proof.
  intros first header.
  assert (H : is_header header = true) by reflexivity.
  split; [exact H|].
  exact (f_equal (fun x => changed_files (agent_after x))
           (X5_commit_blocks_independent first header [lit "src/b.py"]
              None example_agent H)).
Defined.

(** ** What a call leaves in the agent *)

(** X6: on a non-empty output the collector starts from an empty list:
    whatever the agent held before, the call returns, stores and does the
    same.  Entries of an earlier call are not kept and nothing piles up. *)
Theorem X6_collector_starts_afresh
    (w : world) (a : GitFileEmailAgent) (out : str) (old : list file_info) :
  git_log w = Exited 0 out ->
  strip out <> [] ->
  get_files_changed_today w (set_changed_files old a)
  = get_files_changed_today w a.
Proof.
  intros Hlog Hout.
  now rewrite !(collector_with_output w _ Hlog Hout).
Qed.

Lemma X6_collector_starts_afresh_witness :
  git_log example_world = Exited 0 example_log
  /\ strip example_log <> []
  /\ value (get_files_changed_today example_world loaded_agent)
     = Return (example_entries (lit "main")).
Proof.
  assert (H1 : git_log example_world = Exited 0 example_log) by reflexivity.
  assert (H2 : strip example_log <> []) by (vm_compute; discriminate).
  split; [exact H1|]. split; [exact H2|].
  unfold loaded_agent.
  rewrite (X6_collector_starts_afresh example_world
             (set_branch_name (Some (lit "main")) example_agent)
             (example_entries (lit "main")) H1 H2).
  vm_compute. reflexivity.
Defined.

(** ** The session with the mail server *)

Lemma filter_prints (f : event -> bool) (l : list str) :
  (forall s, f (Print s) = false) -> filter f (map Print l) = [].
Proof.
  intros Hf. induction l as [|s l IH]; [reflexivity|].
  cbn [map filter]. now rewrite Hf.
Qed.

Lemma filter_quiet_cons (ev : event) (t : trace) :
  is_smtp ev = false -> filter is_smtp (ev :: t) = filter is_smtp t.
Proof. intros H. cbn [filter]. now rewrite H. Qed.

Lemma filter_calls (w : world) (a : GitFileEmailAgent) (n : nat) :
  filter is_smtp (firstn n (session w a)) = firstn n (session w a).
Proof.
  unfold session. do 4 (destruct n as [|n]; [reflexivity|]).
  destruct n; reflexivity.
Qed.

(** With no failure, the four calls are made. *)
Lemma complete_session (w : world) (a : GitFileEmailAgent) :
  send_failure w a = None -> calls_made w a = 4.
Proof.
  unfold send_failure, calls_made.
  destruct (mime_build w (built_message w a)); [discriminate|].
  destruct (smtp_connect w); [discriminate|].
  destruct (smtp_login w); [discriminate|].
  destruct (mime_as_string w (built_message w a)); [discriminate|].
  destruct (smtp_sendmail w); [discriminate|]. reflexivity.
Qed.

(** A failing [quit] is a failure whatever the message. *)
Lemma quit_failure (w : world) (a : GitFileEmailAgent) :
  smtp_quit w <> None -> send_failure w a <> None.
Proof.
  unfold send_failure. intros Hq.
  destruct (mime_build w (built_message w a)); [discriminate|].
  destruct (smtp_connect w); [discriminate|].
  destruct (smtp_login w); [discriminate|].
  destruct (mime_as_string w (built_message w a)); [discriminate|].
  destruct (smtp_sendmail w); [discriminate|]. exact Hq.
Qed.

(** The message of an agent, with the document as rendered. *)
Lemma built_message_text (w : world) (a : GitFileEmailAgent) :
  changed_files a <> [] ->
  exists doc,
    value (create_html_table w a) = Return doc
    /\ built_message w a
       = {| Subject := lit "Git Files Changed Today - "
                       ++ match branch_name a with
                          | Some (c :: b) => c :: b
                          | _ => lit "Unknown Branch"
                          end;
            From := gmail_username a;
            To := recipient_email a;
            html_part := doc |}.
Proof.
  intros Hne. exists (report (now w) (changed_files a)).
  rewrite (create_html_table_report w a Hne). split; [reflexivity|].
  unfold built_message, or_else.
  destruct (branch_name a) as [[|c b]|]; reflexivity.
Qed.

(** X7: when the log query gives no output or fails, the collector returns
    an empty list but leaves [self.changed_files] as it was.  On an agent
    that still holds entries of an earlier call, the returned list and the
    stored list differ, and [send_email] does not skip: it builds the
    message of the old entries, opens a session unless the message cannot
    be built, and if nothing fails it mails the report of the old entries
    and returns [True]. *)
Theorem X7_stale_entries_are_sent (w : world) (a : GitFileEmailAgent) :
  changed_files a <> [] ->
  (exists out, git_log w = Exited 0 out /\ strip out = [])
  \/ exits_with_failure (git_log w) ->
  let after := agent_after (get_files_changed_today w a) in
  value (get_files_changed_today w a) = Return []
  /\ after = a
  /\ trace_of (send_email w after)
     <> [Print (lit "No files changed today. Email not sent.")]
  /\ (mime_build w (built_message w a) = None ->
      exists rest,
        trace_of (send_email w after)
        = SmtpSSL (lit "smtp.gmail.com") 465 :: rest)
  /\ (send_failure w a = None ->
      exists doc,
        value (create_html_table w a) = Return doc
        /\ value (send_email w after) = Return true
        /\ filter is_sendmail (trace_of (send_email w after))
           = [SmtpSendmail (gmail_username a) (recipient_email a)
                {| Subject := lit "Git Files Changed Today - "
                              ++ match branch_name a with
                                 | Some (c :: b) => c :: b
                                 | _ => lit "Unknown Branch"
                                 end;
                   From := gmail_username a;
                   To := recipient_email a;
                   html_part := doc |}]).
Proof.
  intros Hne Hquery after.
  assert (Hcall : exists t, get_files_changed_today w a = (Return [], a, t)).
  { destruct Hquery as [[out [Hlog Hout]]|Hfail].
    - rewrite (collector_no_output w a Hlog Hout). eauto.
    - pose proof (collector_query_fails w a) as H.
      destruct (git_log w) as [[|rc] out|sig|msg]; try contradiction;
        destruct H as [detail ->]; eauto. }
  destruct Hcall as [t Hcall]. subst after. rewrite Hcall.
  unfold value at 1, agent_after. cbn [fst snd].
  split; [reflexivity|]. split; [reflexivity|].
  rewrite (send_email_session w a Hne). unfold value, trace_of.
  cbn [fst snd]. split; [|split].
  - unfold closing_lines, calls_made, send_failure, session, diagnostic.
    destruct (mime_build w (built_message w a)) as [e0|].
    { destruct (exn_class_eqb (cls e0) SMTPAuthenticationError);
        discriminate. }
    destruct (smtp_connect w); [discriminate|].
    destruct (smtp_login w); [discriminate|].
    destruct (mime_as_string w (built_message w a)); [discriminate|].
    destruct (smtp_sendmail w); discriminate.
  - intros Hbuild. unfold calls_made, session. rewrite Hbuild.
    destruct (smtp_connect w); [eexists; reflexivity|].
    destruct (smtp_login w); [eexists; reflexivity|].
    destruct (mime_as_string w (built_message w a)); [eexists; reflexivity|].
    destruct (smtp_sendmail w); eexists; reflexivity.
  - intros Hok. destruct (built_message_text w a Hne) as [doc [Hdoc Hmsg]].
    exists doc. split; [exact Hdoc|].
    unfold closing_lines. rewrite Hok, (complete_session w a Hok).
    split; [reflexivity|]. unfold session. rewrite Hmsg. reflexivity.
Qed.

Lemma X7_stale_entries_are_sent_witness :
  let w := with_git_log (Exited 0 []) example_world in
  changed_files loaded_agent <> []
  /\ ((exists out, git_log w = Exited 0 out /\ strip out = [])
      \/ exits_with_failure (git_log w))
  /\ send_failure w loaded_agent = None
  /\ value (get_files_changed_today w loaded_agent) = Return []
  /\ changed_files (agent_after (get_files_changed_today w loaded_agent))
     = example_entries (lit "main")
  /\ value (send_email w
              (agent_after (get_files_changed_today w loaded_agent)))
     = Return true.
Proof.
  intros w.
  assert (H1 : changed_files loaded_agent <> []) by discriminate.
  assert (H2 : (exists out, git_log w = Exited 0 out /\ strip out = [])
               \/ exits_with_failure (git_log w))
    by (left; exists []; split; reflexivity).
  assert (H3 : send_failure w loaded_agent = None) by reflexivity.
  destruct (X7_stale_entries_are_sent w loaded_agent H1 H2)
    as [Hv [Hc [_ [_ Hs]]]].
  destruct (Hs H3) as [doc [_ [Hsent _]]].
  split; [exact H1|]. split; [exact H2|]. split; [exact H3|].
  split; [exact Hv|]. split; [exact (f_equal changed_files Hc)|exact Hsent].
Defined.

(** X8: a complete session.  When nothing fails, [send_email] on an agent
    with entries returns [True] after exactly four calls, in this order:
    connect to [smtp.gmail.com:465], log in with the agent's credentials,
    send one message from the agent's address to its recipient, quit.  The
    message carries the document [create_html_table] renders and the
    subject [Git Files Changed Today - <branch>], with ['Unknown Branch']
    for a missing or empty branch name. *)
Theorem X8_complete_session (w : world) (a : GitFileEmailAgent) :
  changed_files a <> [] ->
  send_failure w a = None ->
  exists doc,
    value (create_html_table w a) = Return doc
    /\ send_email w a =
       (Return true, a,
        [SmtpSSL (lit "smtp.gmail.com") 465;
         SmtpLogin (gmail_username a) (gmail_password a);
         SmtpSendmail (gmail_username a) (recipient_email a)
           {| Subject := lit "Git Files Changed Today - "
                         ++ match branch_name a with
                            | Some (c :: b) => c :: b
                            | _ => lit "Unknown Branch"
                            end;
              From := gmail_username a;
              To := recipient_email a;
              html_part := doc |};
         SmtpQuit;
         Print (check_mark :: lit " Email sent successfully to "
                ++ recipient_email a)]).
Proof.
  intros Hne Hok. destruct (built_message_text w a Hne) as [doc [Hdoc Hmsg]].
  exists doc. split; [exact Hdoc|].
  rewrite (send_email_session w a Hne).
  unfold closing_lines. rewrite Hok, (complete_session w a Hok).
  unfold session. rewrite Hmsg. reflexivity.
Qed.

Lemma X8_complete_session_witness :
  changed_files loaded_agent <> []
  /\ send_failure example_world loaded_agent = None
  /\ value (send_email example_world loaded_agent) = Return true
  /\ List.length (trace_of (send_email example_world loaded_agent)) = 5.
Proof.
  assert (H1 : changed_files loaded_agent <> []) by discriminate.
  assert (H2 : send_failure example_world loaded_agent = None)
    by reflexivity.
  destruct (X8_complete_session example_world loaded_agent H1 H2)
    as [doc [_ H]].
  split; [exact H1|]. split; [exact H2|].
  rewrite H. split; reflexivity.
Defined.

(** X9: a session that fails stops at the failure.  The calls into
    [smtplib] are the first calls of the session up to and including the
    first that raises, and none follows a failure of the [email] package:
    if the message cannot be built no call is made at all; after a failed
    connection or login, or if the message cannot be serialised, nothing
    is sent; and after any failure before it [quit] is never called. *)
Theorem X9_session_stops_at_failure
    (w : world) (a : GitFileEmailAgent) (e : exn) :
  changed_files a <> [] ->
  send_failure w a = Some e ->
  filter is_smtp (trace_of (send_email w a))
  = firstn (calls_made w a) (session w a)
  /\ (mime_build w (built_message w a) <> None ->
      filter is_smtp (trace_of (send_email w a)) = [])
  /\ (mime_build w (built_message w a) <> None
      \/ smtp_connect w <> None \/ smtp_login w <> None
      \/ mime_as_string w (built_message w a) <> None ->
      filter is_sendmail (trace_of (send_email w a)) = [])
  /\ (mime_build w (built_message w a) <> None
      \/ smtp_connect w <> None \/ smtp_login w <> None
      \/ mime_as_string w (built_message w a) <> None
      \/ smtp_sendmail w <> None ->
      filter is_quit (trace_of (send_email w a)) = []).
Proof.
  intros Hne Hfail. rewrite (send_email_session w a Hne).
  unfold trace_of. cbn [snd].
  rewrite !filter_app, !filter_prints by reflexivity. rewrite !app_nil_r.
  rewrite filter_calls. split; [reflexivity|].
  unfold calls_made, session.
  destruct (mime_build w (built_message w a)).
  { repeat split; reflexivity. }
  destruct (smtp_connect w).
  { split; [congruence|]. split; reflexivity. }
  destruct (smtp_login w).
  { split; [congruence|]. split; reflexivity. }
  destruct (mime_as_string w (built_message w a)).
  { split; [congruence|]. split; reflexivity. }
  destruct (smtp_sendmail w).
  { split; [congruence|]. split; [|reflexivity].
    intros [H|[H|[H|H]]]; congruence. }
  split; [congruence|]. split.
  - intros [H|[H|[H|H]]]; congruence.
  - intros [H|[H|[H|[H|H]]]]; congruence.
Qed.

Lemma X9_session_stops_at_failure_witness :
  let w := with_smtp_login (Some bad_credentials) example_world in
  let a := set_branch_name (Some (lit "main" ++ newline :: lit "x"))
             loaded_agent in
  changed_files loaded_agent <> []
  /\ send_failure w loaded_agent = Some bad_credentials
  /\ filter is_smtp (trace_of (send_email w loaded_agent))
     = [SmtpSSL (lit "smtp.gmail.com") 465;
        SmtpLogin (lit "sender@example.org") (lit "app-password")]
  /\ changed_files a <> []
  /\ send_failure example_world a = Some header_write_error
  /\ filter is_smtp (trace_of (send_email example_world a))
     = [SmtpSSL (lit "smtp.gmail.com") 465;
        SmtpLogin (lit "sender@example.org") (lit "app-password")].
Proof.
  intros w a.
  assert (H1 : changed_files loaded_agent <> []) by discriminate.
  assert (H2 : send_failure w loaded_agent = Some bad_credentials)
    by reflexivity.
  assert (H3 : changed_files a <> []) by discriminate.
  assert (H4 : send_failure example_world a = Some header_write_error)
    by reflexivity.
  split; [exact H1|]. split; [exact H2|].
  split; [exact (proj1 (X9_session_stops_at_failure w loaded_agent H1 H2))|].
  split; [exact H3|]. split; [exact H4|].
  exact (proj1 (X9_session_stops_at_failure example_world a H3 H4)).
Defined.

(** X10: a session whose last call fails.  If the message is built and
    serialised, connecting, logging in and sending succeed and [quit]
    raises, the message has been handed to the server, yet [send_email]
    prints the report of a failure ([Error sending email:] with the text
    of the exception, or the three lines of an authentication failure) and
    returns [False]; and a run with such a server exits with status 1. *)
Theorem X10_failed_quit_after_sending
    (w : world) (a : GitFileEmailAgent) (e : exn) :
  changed_files a <> [] ->
  mime_build w (built_message w a) = None ->
  smtp_connect w = None -> smtp_login w = None ->
  mime_as_string w (built_message w a) = None ->
  smtp_sendmail w = None ->
  smtp_quit w = Some e ->
  value (send_email w a) = Return false
  /\ filter is_smtp (trace_of (send_email w a))
     = [SmtpSSL (lit "smtp.gmail.com") 465;
        SmtpLogin (gmail_username a) (gmail_password a);
        SmtpSendmail (gmail_username a) (recipient_email a)
          (built_message w a);
        SmtpQuit]
  /\ printed (trace_of (send_email w a))
     = match cls e with
       | SMTPAuthenticationError =>
           [cross_mark :: lit " Error: Gmail authentication failed.";
         lit "  Make sure you're using an App Password, not your regular Gmail password.";
         lit "  Generate one at: https://myaccount.google.com/apppasswords"]
       | _ => [cross_mark :: lit " Error sending email: " ++ message e]
       end
  /\ fst (main w) = 1%Z.
Proof.
  intros Hne Hb Hc Hl Hs Hm Hq.
  assert (Hfail : send_failure w a = Some e)
    by (unfold send_failure; now rewrite Hb, Hc, Hl, Hs, Hm, Hq).
  rewrite (send_email_session w a Hne).
  unfold value, trace_of. cbn [fst snd].
  unfold closing_lines, calls_made. rewrite Hfail, Hb, Hc, Hl, Hs, Hm.
  split; [reflexivity|]. split; [|split].
  - rewrite filter_app, filter_prints by reflexivity. reflexivity.
  - unfold session. cbn [firstn app printed]. rewrite printed_prints.
    unfold diagnostic. now destruct (cls e).
  - destruct (main_status w) as [H0|H1]; [|assumption].
    apply exit_zero_needs in H0 as [_ [_ Hnone]].
    exfalso. apply (quit_failure w (agent_after (main_run w))); [|exact Hnone].
    rewrite Hq. discriminate.
Qed.

Lemma X10_failed_quit_after_sending_witness :
  let w := with_smtp_quit (Some connection_lost) example_world in
  changed_files loaded_agent <> []
  /\ mime_build w (built_message w loaded_agent) = None
  /\ smtp_connect w = None /\ smtp_login w = None
  /\ mime_as_string w (built_message w loaded_agent) = None
  /\ smtp_sendmail w = None
  /\ smtp_quit w = Some connection_lost
  /\ value (send_email w loaded_agent) = Return false
  /\ printed (trace_of (send_email w loaded_agent))
     = [cross_mark :: lit " Error sending email: Connection unexpectedly closed"]
  /\ fst (main w) = 1%Z.
Proof.
  intros w.
  assert (H1 : changed_files loaded_agent <> []) by discriminate.
  assert (H2 : mime_as_string w (built_message w loaded_agent) = None)
    by reflexivity.
  destruct (X10_failed_quit_after_sending w loaded_agent H1
              eq_refl eq_refl eq_refl H2 eq_refl eq_refl)
    as [Hv [_ [Hp Hm]]].
  split; [exact H1|]. split; [reflexivity|]. do 2 (split; [reflexivity|]).
  split; [exact H2|]. do 2 (split; [reflexivity|]).
  split; [exact Hv|]. split; [exact Hp|exact Hm].
Defined.

(** ** A header that cannot be read *)

(** The loop up to a header with fewer than three fields: the entries of
    the lines before it are stored, then [IndexError] is raised. *)
Lemma for_line_in_until_short_header before : forall bad rest seen cur a,
  option_map commit_date cur = option_map header_date (last_header seen) ->
  Forall well_formed before ->
  ill_formed bad ->
  for_line_in (before ++ bad :: rest) cur a =
  (Raise index_error,
   set_changed_files (changed_files a ++ entries_of (stamp a) seen before) a,
   []).
Proof.
  induction before as [|line before IH];
    intros bad rest seen cur a Hcur Hwf Hbad.
  - cbn [app entries_of]. rewrite (for_line_short_header _ _ _ Hbad).
    now rewrite app_nil_r, set_changed_files_id.
  - inversion Hwf as [|? ? Hline Hrest]; subst. cbn [app entries_of].
    destruct (is_header line) eqn:Hh.
    + rewrite for_line_header_fields by (apply Hline; exact Hh).
      rewrite (entry_of_header _ _ _ Hh). cbn [app].
      apply IH; [|assumption|assumption].
      now rewrite (last_header_snoc_header _ _ Hh).
    + assert (Hnext : option_map commit_date cur =
                      option_map header_date (last_header (seen ++ [line])))
        by now rewrite (last_header_snoc_other _ _ Hh).
      unfold entry_of. destruct (is_file_line line) eqn:Hf.
      * destruct cur as [info|].
        -- rewrite (for_line_file _ _ _ _ Hf).
           rewrite (IH bad rest (seen ++ [line]) _ _ Hnext Hrest Hbad).
           destruct (last_header seen) as [h|]; [|discriminate].
           simpl in Hcur. injection Hcur as Hcur. rewrite Hcur.
           unfold stamp. simpl. now rewrite <- app_assoc.
        -- rewrite (for_line_skip _ _ _ Hh (or_intror eq_refl)).
           rewrite (IH bad rest (seen ++ [line]) _ _ Hnext Hrest Hbad).
           destruct (last_header seen); [discriminate|reflexivity].
      * rewrite (for_line_skip _ _ _ Hh (or_introl Hf)).
        now rewrite (IH bad rest (seen ++ [line]) _ _ Hnext Hrest Hbad).
Qed.

(** X11: when the first header with fewer than three fields is met, the
    collector raises [IndexError] at once: nothing after that line is read,
    nothing is printed, and the agent is left holding the entries of the
    lines before it. *)
Theorem X11_collector_stops_at_short_header
    (w : world) (a : GitFileEmailAgent) (out : str)
    (before rest : list str) (bad : str) :
  git_log w = Exited 0 out ->
  log_lines out = before ++ bad :: rest ->
  Forall well_formed before ->
  ill_formed bad ->
  get_files_changed_today w a =
  (Raise index_error,
   set_changed_files (entries_of (stamp a) [] before) a,
   [Run (log_argv (today w))]).
Proof.
  intros Hlog Hlines Hwf Hbad.
  assert (Hex : Exists ill_formed (log_lines out)).
  { rewrite Hlines. apply Exists_app. right. now left. }
  rewrite (collector_with_output w a Hlog (ill_formed_needs_output _ Hex)).
  rewrite Hlines.
  rewrite (@for_line_in_until_short_header before bad rest [] None
             (set_changed_files [] a) eq_refl Hwf Hbad).
  reflexivity.
Qed.

Lemma X11_collector_stops_at_short_header_witness :
  let w := with_git_log (Exited 0 truncated_log) example_world in
  let before := [lit "abc123|Jane Doe|2024-01-01T10:00:00+00:00|fix bug";
                 lit "src/a.py"] in
  git_log w = Exited 0 truncated_log
  /\ log_lines truncated_log
     = before ++ lit "def456|John" :: [lit "src/b.py"]
  /\ Forall well_formed before
  /\ ill_formed (lit "def456|John")
  /\ changed_files (agent_after (get_files_changed_today w example_agent))
     = [{| filename := lit "src/a.py";
           date := lit "2024-01-01";
           branch := lit "Unknown" |}].
Proof.
  intros w before.
  assert (H1 : git_log w = Exited 0 truncated_log) by reflexivity.
  assert (H2 : log_lines truncated_log
               = before ++ lit "def456|John" :: [lit "src/b.py"])
    by (vm_compute; reflexivity).
  assert (H3 : Forall well_formed before)
    by (apply well_formedb_sound; vm_compute; reflexivity).
  assert (H4 : ill_formed (lit "def456|John"))
    by (split; vm_compute; [reflexivity|lia]).
  split; [exact H1|]. split; [exact H2|]. split; [exact H3|].
  split; [exact H4|].
  rewrite (@X11_collector_stops_at_short_header w example_agent
             truncated_log before [lit "src/b.py"] (lit "def456|John")
             H1 H2 H3 H4).
  vm_compute. reflexivity.
Defined.

(** ** The run, stage by stage *)

Lemma branch_resolves_output (w : world) :
  branch_resolves w = true ->
  exists out, git_rev_parse w = Exited 0 out /\ strip out <> [].
Proof.
  unfold branch_resolves.
  destruct (git_rev_parse w) as [[|rc] out|sig|msg]; try discriminate.
  intros H. exists out. split; [reflexivity|].
  intros Hout. rewrite Hout in H. discriminate.
Qed.

(** What a run returns and leaves behind once the branch is resolved. *)
Lemma run_summary (w : world) :
  let a0 := init RECIPIENT_EMAIL (strip (input_username w))
                 (strip (input_password w)) in
  let s1 := agent_after (get_current_branch w a0) in
  branch_resolves w = true ->
  value (main_run w)
  = match value (get_files_changed_today w s1) with
    | Raise e => Raise e
    | Return _ =>
        value (send_email w (agent_after (get_files_changed_today w s1)))
    end
  /\ agent_after (main_run w)
     = agent_after (get_files_changed_today w s1).
Proof.
  intros a0 s1 Hres.
  destruct (branch_resolves_output w Hres) as [out [Hout Hne]].
  unfold main_run. fold a0. rewrite run_stages.
  subst s1. rewrite (branch_resolved w a0 Hout).
  unfold agent_after at 1 3 5. cbn [fst snd].
  cbn [truthy_option]. rewrite (truthy_true Hne).
  destruct (get_files_changed_today w _) as [[[l|e] s2] tc];
    unfold value, agent_after; cbn [fst snd]; [|split; reflexivity].
  destruct (send_email_returns w s2) as [success [t Hsend]].
  rewrite Hsend. split; reflexivity.
Qed.

(** X12: a run on a log with a header of fewer than three fields ends by
    the uncaught [IndexError]: nothing is mailed, no call into [smtplib]
    is made, and the process exits with status 1. *)
Theorem X12_short_header_aborts_run (w : world) (out : str) :
  branch_resolves w = true ->
  git_log w = Exited 0 out ->
  Exists ill_formed (log_lines out) ->
  value (main_run w) = Raise index_error
  /\ fst (main w) = 1%Z
  /\ no_smtp (snd (main w)).
Proof.
  intros Hres Hlog Hill.
  destruct (run_summary w Hres) as [Hvalue Hagent].
  set (s1 := agent_after (get_current_branch w _)) in *.
  destruct (collector_raises w s1 Hlog (ill_formed_needs_output _ Hill) Hill)
    as [s2 Hcol].
  rewrite Hcol in Hvalue, Hagent. unfold value in Hvalue at 2.
  cbn [fst snd] in Hvalue.
  assert (Hstatus : fst (main w) = 1%Z)
    by (unfold main; cbn [fst]; now rewrite Hvalue).
  split; [exact Hvalue|]. split; [exact Hstatus|].
  destruct (branch_resolves_output w Hres) as [bout [Hbout Hne]].
  unfold main, main_run. cbn [snd]. rewrite run_stages.
  rewrite (branch_resolved w _ Hbout).
  cbn [truthy_option]. rewrite (truthy_true Hne).
  fold s1 in Hcol. unfold s1, agent_after in Hcol.
  rewrite (branch_resolved w _ Hbout) in Hcol. cbn [fst snd] in Hcol.
  rewrite Hcol. unfold trace_of. cbn [snd]. quiet.
Qed.

Lemma X12_short_header_aborts_run_witness :
  let w := with_git_log (Exited 0 truncated_log) example_world in
  branch_resolves w = true
  /\ git_log w = Exited 0 truncated_log
  /\ Exists ill_formed (log_lines truncated_log)
  /\ value (main_run w) = Raise index_error
  /\ fst (main w) = 1%Z.
Proof.
  intros w.
  assert (H1 : branch_resolves w = true) by reflexivity.
  assert (H2 : git_log w = Exited 0 truncated_log) by reflexivity.
  assert (H3 : Exists ill_formed (log_lines truncated_log)).
  { assert (Hlines : log_lines truncated_log
                     = [lit "abc123|Jane Doe|2024-01-01T10:00:00+00:00|fix bug";
                        lit "src/a.py"; lit "def456|John"; lit "src/b.py"])
      by (vm_compute; reflexivity).
    rewrite Hlines. do 2 apply Exists_cons_tl. apply Exists_cons_hd.
    split; vm_compute; [reflexivity|lia]. }
  destruct (X12_short_header_aborts_run w H1 H2 H3) as [Hv [Hs _]].
  split; [exact H1|]. split; [exact H2|]. split; [exact H3|].
  split; [exact Hv|exact Hs].
Defined.

(** ** The account never changes *)

Lemma same_account_refl (a : GitFileEmailAgent) : same_account a a.
Proof. repeat split. Qed.

Lemma same_account_trans (a b c : GitFileEmailAgent) :
  same_account a b -> same_account b c -> same_account a c.
Proof.
  intros [H1 [H2 H3]] [H4 [H5 H6]]. repeat split; congruence.
Qed.

Lemma for_line_in_keeps_account (lines : list str) : forall cur a,
  same_account a (agent_after (for_line_in lines cur a)).
Proof.
  induction lines as [|line lines IH]; intros cur a;
    [apply same_account_refl|].
  destruct (is_header line) eqn:Hh.
  - destruct (le_lt_dec 3 (List.length (split pipe line))) as [Hlen|Hlen].
    + rewrite for_line_header_fields by assumption. apply IH.
    + rewrite for_line_short_header by (split; assumption).
      apply same_account_refl.
  - destruct (is_file_line line) eqn:Hf.
    + destruct cur as [info|].
      * rewrite (for_line_file _ _ _ _ Hf).
        eapply same_account_trans; [|apply IH]. repeat split.
      * rewrite (for_line_skip _ _ _ Hh (or_intror eq_refl)). apply IH.
    + rewrite (for_line_skip _ _ _ Hh (or_introl Hf)). apply IH.
Qed.

Lemma collector_keeps_account (w : world) (a : GitFileEmailAgent) :
  same_account a (agent_after (get_files_changed_today w a)).
Proof.
  pose proof (collector_query_fails w a) as H.
  destruct (git_log w) as [[|rc] out|sig|msg] eqn:Hlog.
  2:{ destruct H as [detail ->]. apply same_account_refl. }
  2:{ destruct H as [detail ->]. apply same_account_refl. }
  2:{ rewrite H. apply same_account_refl. }
  destruct (strip out) as [|c s] eqn:Hout.
  - rewrite (collector_no_output w a Hlog Hout). apply same_account_refl.
  - assert (Hne : strip out <> []) by (rewrite Hout; discriminate).
    rewrite (collector_with_output w a Hlog Hne).
    pose proof (for_line_in_keeps_account (log_lines out) None
                  (set_changed_files [] a)) as Hkeep.
    destruct (for_line_in (log_lines out) None (set_changed_files [] a))
      as [[[u|e] s'] t]; unfold agent_after in *; cbn [fst snd] in *.
    + exact Hkeep.
    + destruct (exn_class_eqb (cls e) CalledProcessError); exact Hkeep.
Qed.

Lemma resolver_keeps_account (w : world) (a : GitFileEmailAgent) :
  same_account a (agent_after (get_current_branch w a))
  /\ changed_files (agent_after (get_current_branch w a)) = changed_files a.
Proof.
  pose proof (resolver_outcomes w a) as H.
  destruct (git_rev_parse w) as [[|rc] out|sig|msg].
  - rewrite H. repeat split.
  - destruct H as [detail ->]. repeat split.
  - destruct H as [detail ->]. repeat split.
  - rewrite H. repeat split.
Qed.

Lemma prints_well_addressed (w : world) (l : list str) :
  Forall (well_addressed w) (map Print l).
Proof. induction l; constructor; [exact I|assumption]. Qed.

Lemma send_email_well_addressed (w : world) (a : GitFileEmailAgent) :
  recipient_email a = RECIPIENT_EMAIL ->
  gmail_username a = strip (input_username w) ->
  gmail_password a = strip (input_password w) ->
  Forall (well_addressed w) (trace_of (send_email w a)).
Proof.
  intros Hr Hu Hp. destruct (changed_files a) as [|f l] eqn:Hfiles.
  - rewrite (send_email_nothing w a Hfiles). repeat constructor.
  - assert (Hne : changed_files a <> []) by (rewrite Hfiles; discriminate).
    rewrite (send_email_session w a Hne). unfold trace_of. cbn [snd].
    apply Forall_app. split; [|apply prints_well_addressed].
    generalize (calls_made w a). intros n. unfold session.
    do 4 (destruct n as [|n];
          [cbn [firstn]; repeat constructor; cbn [From To built_message];
           assumption|]).
    destruct n; cbn [firstn]; repeat constructor;
      cbn [From To built_message]; assumption.
Qed.

(** A trace put together from well-addressed pieces. *)
Ltac addressed :=
  repeat first
    [ assumption
    | apply prints_well_addressed
    | apply Forall_nil
    | apply Forall_cons; [exact I|]
    | apply Forall_app; split ].

(** X13: whatever is typed at the console and whatever the repository
    holds, a run talks to [smtp.gmail.com:465] only, logs in with the
    stripped console inputs only, and sends from that user to the one
    configured recipient only. *)
Theorem X13_mail_goes_to_the_configured_recipient (w : world) :
  Forall (well_addressed w) (snd (main w)).
Proof.
  unfold main, main_run. cbn [snd]. rewrite run_stages.
  set (a := init _ _ _).
  destruct (resolver_keeps_account w a) as [Hacc1 _].
  assert (Hres : Forall (well_addressed w)
                   (trace_of (get_current_branch w a))).
  { pose proof (resolver_outcomes w a) as H.
    destruct (git_rev_parse w) as [[|rc] out|sig|msg].
    - rewrite H. repeat constructor.
    - destruct H as [detail ->]. repeat constructor.
    - destruct H as [detail ->]. repeat constructor.
    - rewrite H. repeat constructor. }
  destruct (get_current_branch w a) as [[[b|e] s1] tb];
    unfold trace_of, agent_after in *; cbn [fst snd] in *; [|addressed].
  destruct (truthy_option b); [|addressed].
  pose proof (collector_keeps_account w s1) as Hacc2.
  destruct (collector_single_query w s1) as [lines Hcol].
  destruct (get_files_changed_today w s1) as [[[l|e] s2] tc];
    unfold trace_of, agent_after in *; cbn [fst snd] in *; subst tc;
    [|addressed].
  destruct (same_account_trans Hacc1 Hacc2) as [Hr [Hu Hp]].
  pose proof (send_email_well_addressed w s2
                (eq_sym Hr) (eq_sym Hu) (eq_sym Hp)) as Hsend.
  destruct (send_email w s2) as [[[success|e] s3] ts];
    unfold trace_of in Hsend; cbn [snd] in Hsend;
    destruct (truthy (changed_files s2)); addressed.
Qed.

(** ** When a run succeeds, and which processes it starts *)

Lemma exit_zero_value (r : result bool) :
  exit_status r = 0%Z <-> r = Return true.
Proof.
  split; [|now intros ->]. destruct r as [[|]|e]; simpl; congruence.
Qed.

Lemma entries_nonempty br (lines : list str) :
  entries_of br [] lines <> []
  <-> filter is_file_line (after_first_header lines) <> [].
Proof.
  pose proof (filenames_before_header br lines [] eq_refl) as H.
  split; intros Hne Hempty; apply Hne.
  - rewrite Hempty in H. now destruct (entries_of br [] lines).
  - rewrite Hempty in H.
    now destruct (filter is_file_line (after_first_header lines)).
Qed.

(** X14: a run ends with status 0 only if the branch query gave a
    non-empty name, the log query succeeded with a log in which every
    header has its three fields and at least one file line follows the
    first header, and nothing failed while the report was mailed; the
    agent then holds the branch name and the entries of that log, and the
    four calls of a complete session were made, with the message of these
    entries.  In every other case the status is 1. *)
Theorem X14_exit_status_zero_only_if (w : world) :
  (fst (main w) = 0%Z ->
   exists name out,
     git_rev_parse w = Exited 0 name
     /\ strip name <> []
     /\ git_log w = Exited 0 out
     /\ Forall well_formed (log_lines out)
     /\ filter is_file_line (after_first_header (log_lines out)) <> []
     /\ agent_after (main_run w)
        = set_changed_files (entries_of (strip name) [] (log_lines out))
            (set_branch_name (Some (strip name))
               (init RECIPIENT_EMAIL (strip (input_username w))
                     (strip (input_password w))))
     /\ send_failure w (agent_after (main_run w)) = None
     /\ filter is_smtp (snd (main w))
        = session w (agent_after (main_run w)))
  /\ (fst (main w) = 0%Z \/ fst (main w) = 1%Z).
Proof.
  split; [|apply main_status].
  intros H0.
  destruct (exit_zero_needs w H0) as [[name [Hname Hne]] [Hfiles Hok]].
  exists name.
  assert (Hres : branch_resolves w = true)
    by (unfold branch_resolves; rewrite Hname; now apply truthy_true).
  destruct (run_summary w Hres) as [Hvalue Hagent].
  set (a0 := init _ _ _) in *.
  assert (Hs1 : agent_after (get_current_branch w a0)
                = set_branch_name (Some (strip name)) a0)
    by now rewrite (branch_resolved w a0 Hname).
  rewrite Hs1 in Hvalue, Hagent.
  set (s1 := set_branch_name (Some (strip name)) a0) in *.
  assert (Hstamp : stamp s1 = strip name).
  { unfold stamp, s1, or_else. cbn [branch_name set_branch_name].
    now rewrite (truthy_true Hne). }
  pose proof H0 as Hreturn.
  unfold main in Hreturn. cbn [fst] in Hreturn.
  apply exit_zero_value in Hreturn.
  rewrite Hagent in Hfiles. rewrite Hreturn in Hvalue.
  pose proof (collector_query_fails w s1) as Hfail.
  destruct (git_log w) as [[|rc] out|sig|msg] eqn:Hlog.
  2:{ destruct Hfail as [detail Hfail]. rewrite Hfail in Hfiles.
      now contradiction Hfiles. }
  2:{ destruct Hfail as [detail Hfail]. rewrite Hfail in Hfiles.
      now contradiction Hfiles. }
  2:{ rewrite Hfail in Hvalue. discriminate. }
  exists out. split; [exact Hname|]. split; [exact Hne|].
  split; [reflexivity|].
  destruct (strip out) as [|c s] eqn:Hout.
  { rewrite (collector_no_output w s1 Hlog Hout) in Hfiles.
    now contradiction Hfiles. }
  assert (Hout' : strip out <> []) by (rewrite Hout; discriminate).
  destruct (all_well_formed_or_not (log_lines out)) as [Hwf|Hill].
  2:{ destruct (collector_raises w s1 Hlog Hout' Hill) as [s2 Hr].
      rewrite Hr in Hvalue. discriminate. }
  pose proof (collector_returns w s1 Hlog Hout' Hwf) as Hcol.
  rewrite Hstamp in Hcol.
  rewrite Hcol in Hfiles, Hagent.
  unfold agent_after in Hfiles, Hagent at 2.
  cbn [fst snd changed_files set_changed_files] in Hfiles, Hagent.
  split; [exact Hwf|].
  split; [now apply (entries_nonempty (strip name))|].
  split; [exact Hagent|]. split; [exact Hok|].
  rewrite Hagent in Hok |- *.
  set (s2 := set_changed_files _ s1) in *.
  assert (Hne2 : changed_files s2 <> [])
    by (cbn [changed_files set_changed_files s2]; exact Hfiles).
  unfold main, main_run. cbn [snd]. fold a0. rewrite run_stages.
  rewrite (branch_resolved w a0 Hname). fold s1.
  cbn [truthy_option]. rewrite (truthy_true Hne).
  rewrite Hcol. fold s2.
  rewrite (send_email_session w s2 Hne2).
  rewrite Hok, (complete_session w s2 Hok).
  rewrite (truthy_true Hne2).
  unfold trace_of. cbn [snd]. rewrite !filter_app.
  rewrite !filter_quiet_cons by reflexivity.
  rewrite !filter_prints by reflexivity. rewrite filter_calls.
  cbn [filter app]. unfold session. reflexivity.
Qed.

Lemma X14_exit_status_zero_only_if_witness :
  fst (main example_world) = 0%Z
  /\ send_failure example_world (agent_after (main_run example_world)) = None
  /\ agent_after (main_run example_world) = loaded_agent
  /\ filter is_smtp (snd (main example_world))
     = session example_world loaded_agent.
Proof.
  assert (H : fst (main example_world) = 0%Z) by (vm_compute; reflexivity).
  destruct (proj1 (X14_exit_status_zero_only_if example_world) H)
    as [name [out [_ [_ [_ [_ [_ [_ [Hok Hsession]]]]]]]]].
  assert (Hagent : agent_after (main_run example_world) = loaded_agent)
    by (vm_compute; reflexivity).
  split; [exact H|]. split; [exact Hok|]. split; [exact Hagent|].
  rewrite <- Hagent. exact Hsession.
Defined.

(** ** The child processes of a run *)

Lemma runs_app (t1 t2 : trace) : runs (t1 ++ t2) = runs t1 ++ runs t2.
Proof.
  induction t1 as [|ev t1 IH]; [reflexivity|].
  destruct ev; simpl; now rewrite IH.
Qed.

Lemma runs_prints (l : list str) : runs (map Print l) = [].
Proof. induction l; simpl; auto. Qed.

Lemma send_email_no_runs (w : world) (a : GitFileEmailAgent) :
  runs (trace_of (send_email w a)) = [].
Proof.
  destruct (changed_files a) as [|f l] eqn:Hfiles.
  - now rewrite (send_email_nothing w a Hfiles).
  - assert (Hne : changed_files a <> []) by (rewrite Hfiles; discriminate).
    rewrite (send_email_session w a Hne). unfold trace_of. cbn [snd].
    rewrite runs_app, runs_prints. generalize (calls_made w a).
    intros n. unfold session.
    do 4 (destruct n as [|n]; [reflexivity|]). destruct n; reflexivity.
Qed.

(** X15: a run starts [git rev-parse --abbrev-ref HEAD] exactly once and
    first; it starts the log query, exactly once, if and only if the
    branch query gave a non-empty name; it starts no other process. *)
Theorem X15_processes_of_a_run (w : world) :
  runs (snd (main w))
  = rev_parse_argv
    :: (if branch_resolves w then [log_argv (today w)] else []).
Proof.
  unfold main, main_run. cbn [snd]. rewrite run_stages.
  set (a := init _ _ _).
  pose proof (resolver_outcomes w a) as Hres. unfold branch_resolves.
  destruct (git_rev_parse w) as [[|rc] out|sig|msg].
  2:{ destruct Hres as [detail ->]. reflexivity. }
  2:{ destruct Hres as [detail ->]. reflexivity. }
  2:{ rewrite Hres. reflexivity. }
  rewrite Hres. cbn [truthy_option].
  destruct (truthy (strip out)); [|reflexivity].
  set (s1 := set_branch_name _ a).
  destruct (collector_single_query w s1) as [lines Hcol].
  destruct (get_files_changed_today w s1) as [[[l|e] s2] tc];
    unfold trace_of in Hcol; cbn [snd] in Hcol; subst tc.
  2:{ unfold trace_of. cbn [snd]. rewrite !runs_app. cbn [runs app].
      now rewrite runs_prints. }
  pose proof (send_email_no_runs w s2) as Hsend.
  destruct (send_email w s2) as [[[success|e] s3] ts];
    unfold trace_of in *; cbn [snd] in *;
    rewrite !runs_app, Hsend; cbn [runs app]; rewrite runs_prints;
    destruct (truthy (changed_files s2)); cbn [runs app];
    rewrite ?runs_prints; reflexivity.
Qed.

(** ** The name the Branch Resolver returns *)

(** X16: a name returned by [get_current_branch] is the output of the
    branch query without the whitespace around it (the line break that
    ends it, in practice): it neither starts nor ends with whitespace.
    The agent holds that name afterwards, its entries and its account are
    untouched, and one process was run. *)
Theorem X16_resolved_name_is_stripped
    (w : world) (a : GitFileEmailAgent) (b : str) :
  value (get_current_branch w a) = Return (Some b) ->
  (exists out, git_rev_parse w = Exited 0 out /\ b = strip out)
  /\ trimmed b
  /\ branch_name (agent_after (get_current_branch w a)) = Some b
  /\ changed_files (agent_after (get_current_branch w a)) = changed_files a
  /\ same_account a (agent_after (get_current_branch w a))
  /\ trace_of (get_current_branch w a) = [Run rev_parse_argv].
Proof.
  intros Hb. pose proof (resolver_outcomes w a) as H.
  destruct (git_rev_parse w) as [[|rc] out|sig|msg].
  - rewrite H in *. injection Hb as <-.
    split; [now exists out|]. split; [apply strip_trimmed|].
    repeat split.
  - destruct H as [detail H]. rewrite H in Hb. discriminate.
  - destruct H as [detail H]. rewrite H in Hb. discriminate.
  - rewrite H in Hb. discriminate.
Qed.

Lemma X16_resolved_name_is_stripped_witness :
  value (get_current_branch example_world example_agent)
  = Return (Some (lit "main"))
  /\ trimmed (lit "main")
  /\ branch_name (agent_after (get_current_branch example_world example_agent))
     = Some (lit "main").
Proof.
  assert (H : value (get_current_branch example_world example_agent)
              = Return (Some (lit "main"))) by reflexivity.
  destruct (X16_resolved_name_is_stripped example_world example_agent H)
    as [_ [Ht [Hb _]]].
  split; [exact H|]. split; [exact Ht|exact Hb].
Defined.
